(** * Questionnaire scoring and assessment-link lifecycle of [main2.py]

    A shallow embedding of the scoring functions, the patient identifier
    generator, the [AssessmentLink] manager and the [Assessment] record
    store, together with the part of the document store they talk to. *)

From Stdlib Require Import ZArith List String Ascii Bool Lia.
From Stdlib Require Import Numbers.DecimalString Numbers.DecimalPos Numbers.DecimalN.
From Stdlib Require Import Sorting.Permutation Sorting.Sorted.
Import ListNotations.

Local Open Scope string_scope.
Local Open Scope Z_scope.

(** ** Scoring engine *)

Module Scoring.

(** Python's [sum(answers)]: a left-to-right accumulation starting at 0,
    over unbounded integers. *)
Definition sum (answers : list Z) : Z := fold_left Z.add answers 0.

Definition calculate_phq9_score (answers : list Z) : Z * string * string :=
  let score := sum answers in
  if score <=? 4 then
    (score, "None-minimal", "None")
  else if score <=? 9 then
    (score, "Mild", "Watchful waiting; repeat PHQ-9 at follow-up")
  else if score <=? 14 then
    (score, "Moderate",
     "Treatment plan, considering counseling, follow-up and/or pharmacotherapy")
  else if score <=? 19 then
    (score, "Moderately Severe",
     "Active treatment with pharmacotherapy and/or psychotherapy")
  else
    (score, "Severe",
     "Immediate initiation of pharmacotherapy and expedited referral to mental health specialist").

Definition calculate_gad7_score (answers : list Z) : Z * string :=
  let score := sum answers in
  if score <=? 4 then (score, "Minimal anxiety")
  else if score <=? 9 then (score, "Mild anxiety")
  else if score <=? 14 then (score, "Moderate anxiety")
  else (score, "Severe anxiety").

(** The arithmetic sum of a list, written independently of the
    accumulation order used by [sum]. *)
Fixpoint total (answers : list Z) : Z :=
  match answers with
  | [] => 0
  | a :: rest => a + total rest
  end.

(** The score-to-label tables of the two questionnaires, as relations. *)
Definition phq9_table (score : Z) (severity action : string) : Prop :=
  (score <= 4 -> severity = "None-minimal" /\ action = "None") /\
  (5 <= score <= 9 ->
     severity = "Mild" /\
     action = "Watchful waiting; repeat PHQ-9 at follow-up") /\
  (10 <= score <= 14 ->
     severity = "Moderate" /\
     action = "Treatment plan, considering counseling, follow-up and/or pharmacotherapy") /\
  (15 <= score <= 19 ->
     severity = "Moderately Severe" /\
     action = "Active treatment with pharmacotherapy and/or psychotherapy") /\
  (20 <= score ->
     severity = "Severe" /\
     action = "Immediate initiation of pharmacotherapy and expedited referral to mental health specialist").

Definition gad7_table (score : Z) (severity : string) : Prop :=
  (score <= 4 -> severity = "Minimal anxiety") /\
  (5 <= score <= 9 -> severity = "Mild anxiety") /\
  (10 <= score <= 14 -> severity = "Moderate anxiety") /\
  (15 <= score -> severity = "Severe anxiety").

Definition in_contract (n : nat) (answers : list Z) : Prop :=
  List.length answers = n /\ Forall (fun a => 0 <= a <= 3) answers.

End Scoring.

(** ** The Python runtime used by the core *)

Module Py.

(** The exceptions the modelled code can meet.  The three driver errors
    are subclasses of [pymongo.errors.PyMongoError]; all six are caught
    by [except Exception]. *)
Inductive exn : Type :=
| ValueError (msg : string)
| IndexError (msg : string)
| KeyError (msg : string)
| PyMongoError (msg : string)
| DuplicateKeyError (msg : string)
| WriteError (msg : string).

(** [str(e)] *)
Definition str_exn (e : exn) : string :=
  match e with
  | ValueError m | IndexError m | KeyError m
  | PyMongoError m | DuplicateKeyError m | WriteError m => m
  end.

Inductive result (A : Type) : Type :=
| Return (a : A)
| Raise (e : exn).
Arguments Return {A} a.
Arguments Raise {A} e.

(** Values [int()] is applied to. *)
Inductive value : Type :=
| PyInt (z : Z)
| PyStr (s : string).

(** Whitespace as [str.strip] and [int] see it, on ASCII text:
    TAB to CR, FS to US, and the space. *)
Definition is_space (c : ascii) : bool :=
  let n := N_of_ascii c in
  ((9 <=? n) && (n <=? 13) || (28 <=? n) && (n <=? 32))%N.

Fixpoint lstrip (s : string) : string :=
  match s with
  | EmptyString => EmptyString
  | String c rest => if is_space c then lstrip rest else s
  end.

Fixpoint rstrip (s : string) : string :=
  match s with
  | EmptyString => EmptyString
  | String c rest =>
      match rstrip rest with
      | EmptyString => if is_space c then EmptyString else String c EmptyString
      | kept => String c kept
      end
  end.

Definition strip (s : string) : string := rstrip (lstrip s).

Definition digit_of (c : ascii) : option Z :=
  let n := Z.of_N (N_of_ascii c) in
  if (48 <=? n) && (n <=? 57) then Some (n - 48) else None.

(** The digit part of a base-10 integer literal: at least one digit,
    single underscores allowed between digits only. *)
Fixpoint digits_value (s : string) (acc : Z) (after_digit : bool) : option Z :=
  match s with
  | EmptyString => if after_digit then Some acc else None
  | String c rest =>
      match digit_of c with
      | Some d => digits_value rest (10 * acc + d) true
      | None =>
          if Ascii.eqb c "_" && after_digit
          then digits_value rest acc false
          else None
      end
  end.

(** [int(s)] for a string: surrounding whitespace is dropped, one sign
    is allowed, then the digits. *)
Definition int_of_str (s : string) : result Z :=
  let t := strip s in
  let '(negative, body) :=
    match t with
    | String "-" r => (true, r)
    | String "+" r => (false, r)
    | _ => (false, t)
    end in
  match digits_value body 0 false with
  | Some v => Return (if negative then - v else v)
  | None => Raise (ValueError "invalid literal for int() with base 10")
  end.

(** [int(v)] *)
Definition int (v : value) : result Z :=
  match v with
  | PyInt z => Return z
  | PyStr s => int_of_str s
  end.

(** [s.split(sep)] for a one-character separator. *)
Fixpoint split (sep : ascii) (s : string) : list string :=
  match s with
  | EmptyString => [EmptyString]
  | String c rest =>
      if Ascii.eqb c sep then EmptyString :: split sep rest
      else match split sep rest with
           | [] => [String c EmptyString]
           | seg :: segs => String c seg :: segs
           end
  end.

(** [xs[i]] on a list. *)
Definition index {A : Type} (xs : list A) (i : nat) : result A :=
  match nth_error xs i with
  | Some x => Return x
  | None => Raise (IndexError "list index out of range")
  end.

(** [s[:n]] *)
Definition prefix (n : nat) (s : string) : string := substring 0 n s.

(** [str(n)] for [0 <= n]. *)
Definition str_of_nonneg (n : Z) : string :=
  NilEmpty.string_of_uint (N.to_uint (Z.to_N n)).

Fixpoint zeros (k : nat) : string :=
  match k with
  | O => EmptyString
  | S k' => String "0" (zeros k')
  end.

Definition zfill (width : nat) (s : string) : string :=
  (zeros (width - String.length s) ++ s)%string.

(** The format specification [:04d]: sign first, then zeros up to a total
    width of four; longer numbers are not cut. *)
Definition format_04d (n : Z) : string :=
  if n <? 0 then String "-" (zfill 3 (str_of_nonneg (- n)))
  else zfill 4 (str_of_nonneg n).

End Py.

(** ** Documents *)

(** A document as the store returns it: the inserted fields together with
    the [_id] the driver gave it. *)
Record stored (A : Type) : Type := Stored { _id : string; fields : A }.
Arguments Stored {A} _ _.
Arguments _id {A} _.
Arguments fields {A} _.

(** The [link_data] dictionary of [create_link].  Timestamps are counted
    in milliseconds, the resolution at which the store keeps and compares
    dates. *)
Module Link.
Record t : Type := Make {
  link_id : string;
  doctor_id : string;
  created_at : Z;
  expires_at : Z;
  used : bool;
  patient_email : option string;
  patient_name : option string
}.

(** [{"$set": {"used": True}}] *)
Definition set_used (l : t) : t :=
  {| link_id := link_id l; doctor_id := doctor_id l;
     created_at := created_at l; expires_at := expires_at l;
     used := true;
     patient_email := patient_email l; patient_name := patient_name l |}.
End Link.

Module Assessment.

(** [patient_info], with the age left abstract: whatever the caller put
    there (possibly nothing) before saving, an integer once stored. *)
Record patient_info (Age : Type) : Type := Info {
  name : string;
  age : Age;
  gender : string;
  language : string;
  education : string;
  email : string;
  clinic : string;
  patient_id : string;
  medication : string
}.
Arguments Info {Age} _ _ _ _ _ _ _ _ _.
Arguments name {Age} _.
Arguments age {Age} _.
Arguments gender {Age} _.
Arguments language {Age} _.
Arguments education {Age} _.
Arguments email {Age} _.
Arguments clinic {Age} _.
Arguments patient_id {Age} _.
Arguments medication {Age} _.

Definition with_age {A B : Type} (p : patient_info A) (a : B) : patient_info B :=
  Info (name p) a (gender p) (language p) (education p) (email p)
       (clinic p) (patient_id p) (medication p).

Record phq9 : Type := Phq9 {
  phq9_answers : list Z;
  phq9_score : Z;
  phq9_severity : string;
  phq9_action : string
}.

Record gad7 : Type := Gad7 {
  gad7_answers : list Z;
  gad7_score : Z;
  gad7_severity : string
}.

(** The [assessment_data] dictionary handed to [save_assessment]; keys
    that may be missing are optional. *)
Record data : Type := Data {
  assessment_id : option string;
  created_at : option Z;
  patient : option (patient_info (option Py.value));
  audio_files : list (string * string);
  phq9_assessment : phq9;
  gad7_assessment : gad7;
  doctor_id : option string
}.

(** A document accepted by the validator of the [assessments]
    collection: every required key is there and the age is an integer. *)
Record doc : Type := Doc {
  d_assessment_id : string;
  d_created_at : Z;
  d_patient : patient_info Z;
  d_audio_files : list (string * string);
  d_phq9 : phq9;
  d_gad7 : gad7;
  d_doctor_id : option string
}.

(** BSON [int] is the 32-bit integer type; a larger Python integer is
    sent as a [long] and fails a [bsonType: "int"] constraint. *)
Definition bson_int (z : Z) : bool := (- 2147483648 <=? z) && (z <=? 2147483647).

Definition one_of (options : list string) (s : string) : bool :=
  existsb (String.eqb s) options.

(** The [$jsonSchema] validator installed by [init_mongodb] on the
    [assessments] collection, on the parts of a document that are not
    already fixed by the types above. *)
Definition schema (d : data) : option doc :=
  match assessment_id d, created_at d, patient d with
  | Some aid, Some at_, Some p =>
      match age p with
      | Some (Py.PyInt a) =>
          if bson_int a
             && one_of ["Male"; "Female"; "Other"] (gender p)
             && one_of ["Yes"; "No"] (medication p)
             && (List.length (phq9_answers (phq9_assessment d)) =? 9)%nat
             && forallb bson_int (phq9_answers (phq9_assessment d))
             && bson_int (phq9_score (phq9_assessment d))
             && (List.length (gad7_answers (gad7_assessment d)) =? 7)%nat
             && forallb bson_int (gad7_answers (gad7_assessment d))
             && bson_int (gad7_score (gad7_assessment d))
          then Some (Doc aid at_ (with_age p a) (audio_files d)
                         (phq9_assessment d) (gad7_assessment d) (doctor_id d))
          else None
      | _ => None
      end
  | _, _, _ => None
  end.

End Assessment.

(** ** The world the core runs in *)

(** The clock, the two sources of fresh identifiers, the reachability of
    the document store, its two collections, and the messages shown with
    [st.error]. *)
Record World : Type := MkWorld {
  clock : Z;
  uuid_source : nat -> string;
  uuid_drawn : nat;
  oid_source : nat -> string;
  oid_drawn : nat;
  outage : option string;
  assessment_links : list (stored Link.t);
  assessments : list (stored Assessment.doc);
  st_errors : list string
}.

Definition with_links (w : World) (ls : list (stored Link.t)) : World :=
  MkWorld (clock w) (uuid_source w) (uuid_drawn w) (oid_source w)
          (oid_drawn w) (outage w) ls (assessments w) (st_errors w).

Definition with_assessments (w : World) (ds : list (stored Assessment.doc)) : World :=
  MkWorld (clock w) (uuid_source w) (uuid_drawn w) (oid_source w)
          (oid_drawn w) (outage w) (assessment_links w) ds (st_errors w).

(** ** A state and exception monad over the world *)

Module Run.
Import Py.

Definition M (A : Type) : Type := World -> result A * World.

Definition ret {A : Type} (a : A) : M A := fun w => (Return a, w).

Definition raise {A : Type} (e : exn) : M A := fun w => (Raise e, w).

Definition bind {A B : Type} (m : M A) (k : A -> M B) : M B :=
  fun w =>
    match m w with
    | (Return a, w') => k a w'
    | (Raise e, w') => (Raise e, w')
    end.

Definition lift {A : Type} (r : result A) : M A := fun w => (r, w).

(** [try: body  except Exception as e: handler] *)
Definition try_except {A : Type} (body : M A) (handler : exn -> M A) : M A :=
  fun w =>
    match body w with
    | (Return a, w') => (Return a, w')
    | (Raise e, w') => handler e w'
    end.

Definition get : M World := fun w => (Return w, w).
Definition put (w : World) : M unit := fun _ => (Return tt, w).

End Run.

Declare Scope run_scope.
Delimit Scope run_scope with run.
Notation "x <- m ;; k" := (Run.bind m (fun x => k))
  (at level 61, m at next level, right associativity) : run_scope.
Notation "m ;;; k" := (Run.bind m (fun _ => k))
  (at level 61, right associativity) : run_scope.

Local Open Scope run_scope.

(** ** What the environment provides *)

Module Env.
Import Py Run.

(** [datetime.now(timezone.utc)] *)
Definition datetime_now : M Z := fun w => (Return (clock w), w).

(** [timedelta(days=n)] *)
Definition timedelta_days (n : Z) : Z := n * 86400000.

(** [str(uuid.uuid4())] *)
Definition uuid4 : M string :=
  fun w =>
    (Return (uuid_source w (uuid_drawn w)),
     MkWorld (clock w) (uuid_source w) (S (uuid_drawn w)) (oid_source w)
             (oid_drawn w) (outage w) (assessment_links w) (assessments w)
             (st_errors w)).

(** [ObjectId()], in its string form. *)
Definition object_id : M string :=
  fun w =>
    (Return (oid_source w (oid_drawn w)),
     MkWorld (clock w) (uuid_source w) (uuid_drawn w) (oid_source w)
             (S (oid_drawn w)) (outage w) (assessment_links w) (assessments w)
             (st_errors w)).

(** [st.error(msg)] *)
Definition st_error (msg : string) : M unit :=
  fun w =>
    (Return tt,
     MkWorld (clock w) (uuid_source w) (uuid_drawn w) (oid_source w)
             (oid_drawn w) (outage w) (assessment_links w) (assessments w)
             (msg :: st_errors w)).

End Env.

(** ** The document store, as the driver presents it *)

Module Collection.
Import Py Run.

(** Every call reaches the server first, and raises when it cannot. *)
Definition server : M unit :=
  fun w =>
    match outage w with
    | Some msg => (Raise (PyMongoError msg), w)
    | None => (Return tt, w)
    end.

Fixpoint update_first {A : Type} (q : A -> bool) (f : A -> A) (l : list A) : list A :=
  match l with
  | [] => []
  | x :: rest => if q x then f x :: rest else x :: update_first q f rest
  end.

(** The first document in descending order of [key]. *)
Fixpoint greatest {A : Type} (key : A -> string) (l : list A) : option A :=
  match l with
  | [] => None
  | x :: rest =>
      match greatest key rest with
      | None => Some x
      | Some y => if String.ltb (key x) (key y) then Some y else Some x
      end
  end.

(** [db.assessment_links]: a unique index on [link_id]; the validator
    only asks for what the type [Link.t] already guarantees. *)
Definition links_insert_one (l : Link.t) : M string :=
  oid <- Env.object_id ;;
  server ;;;
  w <- get ;;
  if existsb (fun s => Link.link_id (fields s) =? Link.link_id l)%string
             (assessment_links w)
  then raise (DuplicateKeyError "E11000 duplicate key error: link_id")
  else put (with_links w (assessment_links w ++ [Stored oid l])) ;;;
       ret oid.

Definition links_find_one (q : Link.t -> bool) : M (option (stored Link.t)) :=
  server ;;;
  w <- get ;;
  ret (find (fun s => q (fields s)) (assessment_links w)).

Definition links_update_one (q : Link.t -> bool) (f : Link.t -> Link.t) : M unit :=
  server ;;;
  w <- get ;;
  put (with_links w
         (update_first (fun s => q (fields s))
                       (fun s => Stored (_id s) (f (fields s)))
                       (assessment_links w))).

(** [db.assessments]: the schema validator, and a unique index on
    [assessment_id]. *)
Definition assessments_insert_one (d : Assessment.data) : M string :=
  oid <- Env.object_id ;;
  server ;;;
  w <- get ;;
  match Assessment.schema d with
  | None => raise (WriteError "Document failed validation")
  | Some accepted =>
      if existsb (fun s => Assessment.d_assessment_id (fields s)
                           =? Assessment.d_assessment_id accepted)%string
                 (assessments w)
      then raise (DuplicateKeyError "E11000 duplicate key error: assessment_id")
      else put (with_assessments w (assessments w ++ [Stored oid accepted])) ;;;
           ret oid
  end.

Definition assessments_find_one (q : Assessment.doc -> bool)
  : M (option (stored Assessment.doc)) :=
  server ;;;
  w <- get ;;
  ret (find (fun s => q (fields s)) (assessments w)).

(** [find_one(filter, sort=[(key, DESCENDING)])] *)
Definition assessments_find_one_desc
    (q : Assessment.doc -> bool) (key : Assessment.doc -> string)
  : M (option (stored Assessment.doc)) :=
  server ;;;
  w <- get ;;
  ret (greatest (fun s => key (fields s))
                (filter (fun s => q (fields s)) (assessments w))).

End Collection.

(** ** The core *)

Module Core.
Import Py Run Env Collection.

Definition is_index_or_value_error (e : exn) : bool :=
  match e with
  | IndexError _ | ValueError _ => true
  | _ => false
  end.

(** [try: body  except (IndexError, ValueError): handler] *)
Definition try_except_index_value {A : Type} (body : M A) (handler : M A) : M A :=
  fun w =>
    match body w with
    | (Return a, w') => (Return a, w')
    | (Raise e, w') =>
        if is_index_or_value_error e then handler w' else (Raise e, w')
    end.

Definition generate_unique_patient_id (doctor_id : string) : M string :=
  latest_assessment <-
    assessments_find_one_desc
      (fun d => match Assessment.d_doctor_id d with
                | Some owner => (owner =? doctor_id)%string
                | None => false
                end)
      (fun d => Assessment.patient_id (Assessment.d_patient d)) ;;
  number <-
    match latest_assessment with
    | Some latest =>
        let latest_id := Assessment.patient_id (Assessment.d_patient (fields latest)) in
        try_except_index_value
          (field <- lift (index (split "-" latest_id) 1) ;;
           lift (int_of_str field))
          (ret 0)
    | None => ret 0
    end ;;
  let new_number := number + 1 in
  ret ("P" ++ prefix 4 doctor_id ++ "-" ++ format_04d new_number)%string.

Definition create_link (doctor_id : string) (expiry_days : Z)
    (patient_email patient_name : option string) : M (option string) :=
  link_id <- uuid4 ;;
  created_at <- datetime_now ;;
  let expires_at := created_at + timedelta_days expiry_days in
  let link_data :=
    {| Link.link_id := link_id;
       Link.doctor_id := doctor_id;
       Link.created_at := created_at;
       Link.expires_at := expires_at;
       Link.used := false;
       Link.patient_email := patient_email;
       Link.patient_name := patient_name |} in
  try_except
    (links_insert_one link_data ;;;
     ret (Some link_id))
    (fun e =>
       st_error ("Error creating assessment link: " ++ str_exn e) ;;;
       ret None).

Definition validate_link (link_id : string) : M (option (stored Link.t)) :=
  try_except
    (current_time <- datetime_now ;;
     link <- links_find_one
               (fun l => (Link.link_id l =? link_id)%string
                         && (current_time <? Link.expires_at l)
                         && negb (Link.used l)) ;;
     ret link)
    (fun e =>
       st_error ("Error validating assessment link: " ++ str_exn e) ;;;
       ret None).

Definition mark_link_used (link_id : string) : M bool :=
  try_except
    (links_update_one (fun l => (Link.link_id l =? link_id)%string)
                      Link.set_used ;;;
     ret true)
    (fun e =>
       st_error ("Error marking link as used: " ++ str_exn e) ;;;
       ret false).

Definition set_created_at (d : Assessment.data) (t : Z) : Assessment.data :=
  Assessment.Data (Assessment.assessment_id d) (Some t) (Assessment.patient d)
    (Assessment.audio_files d) (Assessment.phq9_assessment d)
    (Assessment.gad7_assessment d) (Assessment.doctor_id d).

Definition set_assessment_id (d : Assessment.data) (i : string) : Assessment.data :=
  Assessment.Data (Some i) (Assessment.created_at d) (Assessment.patient d)
    (Assessment.audio_files d) (Assessment.phq9_assessment d)
    (Assessment.gad7_assessment d) (Assessment.doctor_id d).

Definition set_age (d : Assessment.data)
    (p : Assessment.patient_info (option value)) (a : Z) : Assessment.data :=
  Assessment.Data (Assessment.assessment_id d) (Assessment.created_at d)
    (Some (Assessment.with_age p (Some (PyInt a))))
    (Assessment.audio_files d) (Assessment.phq9_assessment d)
    (Assessment.gad7_assessment d) (Assessment.doctor_id d).

Definition save_assessment (assessment_data : Assessment.data) : M (option string) :=
  try_except
    (now <- datetime_now ;;
     let assessment_data := set_created_at assessment_data now in
     fresh <- uuid4 ;;
     let assessment_data := set_assessment_id assessment_data fresh in
     assessment_data <-
       match Assessment.patient assessment_data with
       | Some p =>
           match Assessment.age p with
           | Some v => a <- lift (int v) ;; ret (set_age assessment_data p a)
           | None => ret assessment_data
           end
       | None => ret assessment_data
       end ;;
     inserted_id <- assessments_insert_one assessment_data ;;
     ret (Some inserted_id))
    (fun e =>
       st_error ("Error saving assessment: " ++ str_exn e) ;;;
       ret None).

Definition get_assessment_by_id (assessment_id : string)
  : M (option (stored Assessment.doc)) :=
  assessments_find_one
    (fun d => (Assessment.d_assessment_id d =? assessment_id)%string).

End Core.

(** ** Histories *)

(** What can happen between two calls: time passes, the store goes away
    or comes back, and the core's operations run.  A history is a list of
    such events, executed from left to right. *)
Module Session.
Import Py Run Core.

Inductive event : Type :=
| Tick (ms : N)
| StoreDown (msg : string)
| StoreUp
| CreateLink (doctor_id : string) (expiry_days : Z)
             (patient_email patient_name : option string)
| ValidateLink (link_id : string)
| MarkLinkUsed (link_id : string)
| SaveAssessment (assessment_data : Assessment.data)
| GetAssessmentById (assessment_id : string)
| GeneratePatientId (doctor_id : string).

Definition advance (ms : Z) (w : World) : World :=
  MkWorld (clock w + ms) (uuid_source w) (uuid_drawn w) (oid_source w)
          (oid_drawn w) (outage w) (assessment_links w) (assessments w)
          (st_errors w).

Definition with_outage (o : option string) (w : World) : World :=
  MkWorld (clock w) (uuid_source w) (uuid_drawn w) (oid_source w)
          (oid_drawn w) o (assessment_links w) (assessments w)
          (st_errors w).

Definition step (w : World) (e : event) : World :=
  match e with
  | Tick ms => advance (Z.of_N ms) w
  | StoreDown msg => with_outage (Some msg) w
  | StoreUp => with_outage None w
  | CreateLink d n pe pn => snd (create_link d n pe pn w)
  | ValidateLink i => snd (validate_link i w)
  | MarkLinkUsed i => snd (mark_link_used i w)
  | SaveAssessment a => snd (save_assessment a w)
  | GetAssessmentById i => snd (get_assessment_by_id i w)
  | GeneratePatientId d => snd (generate_unique_patient_id d w)
  end.

Definition run (history : list event) (w : World) : World :=
  fold_left step history w.

End Session.

(** ** Vocabulary for the link lifecycle *)

Module LinkState.
Import Py Run Env Collection.

Definition ids (ls : list (stored Link.t)) : list string :=
  map (fun s => Link.link_id (fields s)) ls.

(** The unique index on [link_id]. *)
Definition unique_link_ids (w : World) : Prop := NoDup (ids (assessment_links w)).

(** Stored under this identifier. *)
Definition stored_as (link_id : string) (w : World) (l : stored Link.t) : Prop :=
  In l (assessment_links w) /\ Link.link_id (fields l) = link_id.

(** Valid for consumption: not used, and not yet expired. *)
Definition live (now : Z) (l : stored Link.t) : Prop :=
  Link.used (fields l) = false /\ now < Link.expires_at (fields l).

(** Consumed or expired. *)
Definition spent (now : Z) (l : stored Link.t) : Prop :=
  Link.used (fields l) = true \/ Link.expires_at (fields l) <= now.

(** The value every failed validation returns. *)
Definition not_found : Py.result (option (stored Link.t)) := Py.Return None.

(** The query of [validate_link]. *)
Definition live_query (link_id : string) (now : Z) (l : Link.t) : bool :=
  (Link.link_id l =? link_id)%string && (now <? Link.expires_at l)
  && negb (Link.used l).

(** The world after [st.error(msg)]. *)
Definition logged (msg : string) (w : World) : World :=
  snd (st_error msg w).

(** The filter and the update of [mark_link_used], on stored documents. *)
Definition same_id (link_id : string) (s : stored Link.t) : bool :=
  (Link.link_id (fields s) =? link_id)%string.

Definition consume (s : stored Link.t) : stored Link.t :=
  Stored (_id s) (Link.set_used (fields s)).

(** The document a successful [create_link] inserts. *)
Definition new_link (doctor_id : string) (expiry_days : Z)
    (patient_email patient_name : option string) (w : World) : stored Link.t :=
  Stored (oid_source w (oid_drawn w))
    (Link.Make (uuid_source w (uuid_drawn w)) doctor_id (clock w)
       (clock w + timedelta_days expiry_days) false patient_email patient_name).

(** The ways in which the collection of links changes: not at all, by
    consuming the first link with some identifier, or by adding a link
    under an identifier not yet there. *)
Inductive change (ls : list (stored Link.t)) : list (stored Link.t) -> Prop :=
| Unchanged : change ls ls
| Consumed (link_id : string) :
    change ls (update_first (same_id link_id) consume ls)
| Added (s : stored Link.t) :
    ~ In (Link.link_id (fields s)) (ids ls) -> change ls (ls ++ [s]).

(** Some link stored under [link_id] is consumed or expired. *)
Definition has_spent (link_id : string) (now : Z) (ls : list (stored Link.t)) : Prop :=
  exists l, In l ls /\ Link.link_id (fields l) = link_id /\ spent now l.

End LinkState.

(** ** Vocabulary for text and patient identifiers *)

Module Text.
Import Py.

(** Made of the characters 0 to 9 only. *)
Fixpoint only_digits (s : string) : bool :=
  match s with
  | EmptyString => true
  | String c rest =>
      match digit_of c with
      | Some _ => only_digits rest
      | None => false
      end
  end.

(** The character occurs in the string. *)
Fixpoint contains (c : ascii) (s : string) : bool :=
  match s with
  | EmptyString => false
  | String c' rest => Ascii.eqb c' c || contains c rest
  end.

End Text.

Module PatientIds.
Import Py.

(** The filter [{"doctor_id": doctor_id}] and the sort key
    [patient_info.patient_id], on stored documents. *)
Definition owned_by (doctor_id : string) (s : stored Assessment.doc) : bool :=
  match Assessment.d_doctor_id (fields s) with
  | Some owner => (owner =? doctor_id)%string
  | None => false
  end.

Definition pid (s : stored Assessment.doc) : string :=
  Assessment.patient_id (Assessment.d_patient (fields s)).

(** A record of the clinician whose patient identifier no other record
    of the clinician exceeds in string order. *)
Definition latest_for (doctor_id : string) (w : World) (s : stored Assessment.doc) : Prop :=
  In s (assessments w) /\ owned_by doctor_id s = true /\
  forall s', In s' (assessments w) -> owned_by doctor_id s' = true ->
             String.ltb (pid s) (pid s') = false.

(** The number read off a patient identifier: the integer in its second
    hyphen-separated field, and 0 when there is no such field or it is
    not an integer. *)
Definition number_of (latest_id : string) : Z :=
  match index (split "-" latest_id) 1 with
  | Return field =>
      match int_of_str field with
      | Return k => k
      | Raise _ => 0
      end
  | Raise _ => 0
  end.

End PatientIds.

(** ** Sample worlds *)

Module Samples.
Import Py.

(** Identifier sources: the n-th draw is a fixed stem followed by n. *)
Definition uuid_nth (n : nat) : string :=
  ("3f2b8c1e-7a4d-4e0b-9c55-00000000" ++ zfill 4 (str_of_nonneg (Z.of_nat n)))%string.

Definition oid_nth (n : nat) : string :=
  ("65f1a2b3c4d5e6f708192a" ++ zfill 2 (str_of_nonneg (Z.of_nat n)))%string.

(** An empty, reachable store at clock reading 1000. *)
Definition fresh : World :=
  MkWorld 1000 uuid_nth 0 oid_nth 0 None [] [] [].

(** The same store, unreachable. *)
Definition unreachable : World :=
  MkWorld 1000 uuid_nth 0 oid_nth 0 (Some "connection refused") [] [] [].

Definition doctor : string := "65f1a2b3c4d5e6f708192a00".

(** One unused link that expires at 5000. *)
Definition a_link : stored Link.t :=
  Stored "65f1a2b3c4d5e6f708192a77"
    (Link.Make "link-1" doctor 0 5000 false (Some "a@b.com") None).

Definition one_link : World :=
  MkWorld 1000 uuid_nth 0 oid_nth 0 None [a_link] [] [].

Definition ann (patient_id : string) : Assessment.patient_info (option value) :=
  Assessment.Info "Ann" (Some (PyStr "41")) "Female" "English" "Graduate"
    "ann@example.org" "Clinic" patient_id "No".

Definition a_record (patient_id : string) : Assessment.data :=
  Assessment.Data None None (Some (ann patient_id)) []
    (Assessment.Phq9 [0; 0; 0; 0; 0; 0; 0; 0; 0] 0 "None-minimal" "None")
    (Assessment.Gad7 [0; 0; 0; 0; 0; 0; 0] 0 "Minimal anxiety")
    (Some doctor).

(** The store after one assessment with the given patient identifier has
    been saved. *)
Definition after_saving (patient_id : string) : World :=
  snd (Core.save_assessment (a_record patient_id) fresh).

(** The document that saving puts in the store. *)
Definition saved_record (patient_id : string) : stored Assessment.doc :=
  Stored (oid_nth 0)
    (Assessment.Doc (uuid_nth 0) 1000 (Assessment.with_age (ann patient_id) 41) []
       (Assessment.phq9_assessment (a_record patient_id))
       (Assessment.gad7_assessment (a_record patient_id))
       (Some doctor)).

End Samples.

(** ** Sorted and limited reads *)

Module Query.
Import Py Run Env Collection.

(** [sort=[(key, DESCENDING)]] on a date key.  Documents with equal keys
    keep the order the collection has them in. *)
Fixpoint insert_desc {A : Type} (key : A -> Z) (x : A) (sorted : list A) : list A :=
  match sorted with
  | [] => [x]
  | y :: rest =>
      if key y <=? key x then x :: sorted else y :: insert_desc key x rest
  end.

Definition sort_desc {A : Type} (key : A -> Z) (l : list A) : list A :=
  fold_right (insert_desc key) [] l.

(** The order of a descending sort: [a] may come before [b] when its key
    is at least as large. *)
Definition newest_first {A : Type} (key : A -> Z) (a b : A) : Prop :=
  key b <= key a.

(** [limit=n]: the first [n] documents, and all of them when [n] is 0. *)
Definition limited {A : Type} (limit : nat) (l : list A) : list A :=
  match limit with
  | O => l
  | S _ => firstn limit l
  end.

(** [list(db.assessment_links.find(filter, sort=[("created_at", DESCENDING)]))] *)
Definition links_find_desc (q : Link.t -> bool) : M (list (stored Link.t)) :=
  server ;;;
  w <- get ;;
  ret (sort_desc (fun s => Link.created_at (fields s))
                 (filter (fun s => q (fields s)) (assessment_links w))).

(** [list(db.assessments.find(filter, sort=[("created_at", DESCENDING)], limit=n))] *)
Definition assessments_find_desc (q : Assessment.doc -> bool) (limit : nat)
  : M (list (stored Assessment.doc)) :=
  server ;;;
  w <- get ;;
  ret (limited limit
         (sort_desc (fun s => Assessment.d_created_at (fields s))
                    (filter (fun s => q (fields s)) (assessments w)))).

End Query.

(** ** The read side of the two managers *)

Module Reads.
Import Py Run Env Collection Query.

Definition get_doctor_links (doctor_id : string) : M (list (stored Link.t)) :=
  links_find_desc (fun l => (Link.doctor_id l =? doctor_id)%string).

Definition get_assessments_by_doctor (doctor_id : string) (limit : nat)
  : M (list (stored Assessment.doc)) :=
  assessments_find_desc
    (fun d => match Assessment.d_doctor_id d with
              | Some owner => (owner =? doctor_id)%string
              | None => false
              end)
    limit.

Definition get_patient_history (patient_id : string) (limit : nat)
  : M (list (stored Assessment.doc)) :=
  assessments_find_desc
    (fun d => (Assessment.patient_id (Assessment.d_patient d) =? patient_id)%string)
    limit.

(** [if doctor_id:] on an optional string: there, and not empty. *)
Definition truthy (s : option string) : bool :=
  match s with
  | Some EmptyString => false
  | Some _ => true
  | None => false
  end.

Definition get_assessments_by_date_range (start_date end_date : Z)
    (doctor_id : option string) : M (list (stored Assessment.doc)) :=
  let query := fun d : Assessment.doc =>
    (start_date <=? Assessment.d_created_at d)
    && (Assessment.d_created_at d <=? end_date) in
  let query :=
    if truthy doctor_id
    then fun d => query d
                  && match Assessment.d_doctor_id d, doctor_id with
                     | Some owner, Some wanted => (owner =? wanted)%string
                     | _, _ => false
                     end
    else query in
  assessments_find_desc query 0.

(** The default [limit=100] of the two limited reads. *)
Definition default_limit : nat := 100.

End Reads.

(** ** The assessment form *)

Module Form.
Import Py Run Env Collection Core.

(** What step 1 of the form collects. *)
Record personal : Type := Personal {
  name : string;
  age : Z;
  gender : string;
  language : string;
  education : string;
  email : string;
  clinic : string;
  medication : string
}.

(** [not value] for a value of the [required_fields] dictionary, where a
    missing value is [None]. *)
Definition is_missing (v : option value) : bool :=
  match v with
  | None => true
  | Some (PyStr EmptyString) => true
  | Some (PyInt 0) => true
  | Some _ => false
  end.

Definition required_fields (p : personal) : list (string * option value) :=
  [("name", Some (PyStr (name p)));
   ("age", if 0 <? age p then Some (PyInt (age p)) else None);
   ("gender", Some (PyStr (gender p)));
   ("language", Some (PyStr (language p)));
   ("education", Some (PyStr (education p)));
   ("email", Some (PyStr (email p)));
   ("clinic", Some (PyStr (clinic p)));
   ("medication", Some (PyStr (medication p)))].

(** [[field for field, value in required_fields.items() if not value]] *)
Definition missing_fields (p : personal) : list string :=
  map fst (filter (fun fv => is_missing (snd fv)) (required_fields p)).

(** The four choices of every PHQ-9 and GAD-7 question. *)
Definition options : list string :=
  ["Not at all"; "Several days"; "More than half the days"; "Nearly every day"].

(** [xs.index(x)] *)
Fixpoint list_index (x : string) (xs : list string) : result Z :=
  match xs with
  | [] => Raise (ValueError "x is not in list")
  | y :: rest =>
      if (y =? x)%string then Return 0
      else match list_index x rest with
           | Return i => Return (i + 1)
           | Raise e => Raise e
           end
  end.

(** The loop that turns the chosen labels into answers:
    [answers.append(options.index(answer))] for each question. *)
Fixpoint answers_of (chosen : list string) : result (list Z) :=
  match chosen with
  | [] => Return []
  | answer :: rest =>
      match list_index answer options with
      | Raise e => Raise e
      | Return a =>
          match answers_of rest with
          | Return answers => Return (a :: answers)
          | Raise e => Raise e
          end
      end
  end.

(** What the session holds when "Submit Assessment" is pressed: the
    personal data, the patient identifier if one was generated, the PHQ-9
    answers stored under the keys [phq9_0] to [phq9_8] (here by position),
    and the recordings by task. *)
Record session : Type := Session {
  form : personal;
  patient_id : option string;
  phq9 : list Z;
  audio_recordings : list (string * string)
}.

(** [[form_data[f'phq9_{i}'] for i in range(9)]] *)
Fixpoint read_answers (stored : list Z) (keys : list nat) : result (list Z) :=
  match keys with
  | [] => Return []
  | i :: rest =>
      match nth_error stored i with
      | None => Raise (KeyError "phq9")
      | Some a =>
          match read_answers stored rest with
          | Return answers => Return (a :: answers)
          | Raise e => Raise e
          end
      end
  end.

(** The upload loop.  [upload] stands for the outcome of
    [drive_manager.upload_audio] on each task's recording: a file
    identifier, or nothing.  Empty recordings are skipped; the first
    failed upload stops the loop with a message. *)
Fixpoint upload_all (upload : string -> option string)
    (recordings : list (string * string)) (audio_files : list (string * string))
  : M (option (list (string * string))) :=
  match recordings with
  | [] => ret (Some audio_files)
  | (audio_type, audio_data) :: rest =>
      match audio_data with
      | EmptyString => upload_all upload rest audio_files
      | _ =>
          if Reads.truthy (upload audio_type)
          then upload_all upload rest
                 (audio_files
                  ++ [(audio_type,
                       match upload audio_type with
                       | Some file_id => file_id
                       | None => EmptyString
                       end)])
          else st_error ("Failed to upload " ++ audio_type ++ " audio file") ;;;
               ret None
      end
  end.

Inductive outcome : Type :=
| Submitted (phq9_score : Z) (phq9_severity phq9_action : string)
            (gad7_score : Z) (gad7_severity : string)
| UploadFailed
| SaveFailed.

(** The dictionary the form assembles for [save_assessment]. *)
Definition assemble (p : personal) (patient_id : string)
    (audio_files : list (string * string))
    (phq9_answers gad7_answers : list Z) (owner : string) : Assessment.data :=
  let '(phq9_score, phq9_severity, phq9_action) :=
    Scoring.calculate_phq9_score phq9_answers in
  let '(gad7_score, gad7_severity) :=
    Scoring.calculate_gad7_score gad7_answers in
  Assessment.Data None None
    (Some (Assessment.Info (name p) (Some (PyInt (age p))) (gender p)
             (language p) (education p) (email p) (clinic p) patient_id
             (medication p)))
    audio_files
    (Assessment.Phq9 phq9_answers phq9_score phq9_severity phq9_action)
    (Assessment.Gad7 gad7_answers gad7_score gad7_severity)
    (Some owner).

(** The handler of the "Submit Assessment" button of
    [create_assessment_form].  [doctor_id] is the doctor the form was
    opened for, if any, and [user_id] the identifier of the logged-in
    user, used when there is none.  What the handler shows on the page is
    summed up in the outcome it returns here. *)
Definition submit (s : session) (gad7_answers : list Z)
    (link_data : option (stored Link.t)) (doctor_id : option string)
    (user_id : string) (upload : string -> option string) : M outcome :=
  let owner :=
    match doctor_id with
    | Some d => if Reads.truthy doctor_id then d else user_id
    | None => user_id
    end in
  patient_id <-
    match patient_id s with
    | Some p => ret p
    | None => generate_unique_patient_id owner
    end ;;
  phq9_answers <- lift (read_answers (phq9 s) (seq 0 9)) ;;
  uploaded <- upload_all upload (audio_recordings s) [] ;;
  match uploaded with
  | None => ret UploadFailed
  | Some audio_files =>
      let assessment_data :=
        assemble (form s) patient_id audio_files phq9_answers gad7_answers
                 owner in
      result <- save_assessment assessment_data ;;
      if Reads.truthy result then
        match link_data with
        | Some link => mark_link_used (Link.link_id (fields link)) ;;; ret tt
        | None => ret tt
        end ;;;
        let '(phq9_score, phq9_severity, phq9_action) :=
          Scoring.calculate_phq9_score phq9_answers in
        let '(gad7_score, gad7_severity) :=
          Scoring.calculate_gad7_score gad7_answers in
        ret (Submitted phq9_score phq9_severity phq9_action
                       gad7_score gad7_severity)
      else
        st_error "Failed to save assessment" ;;;
        ret SaveFailed
  end.


End Form.

(** ** The pages that list links and count assessments *)

Module Pages.
Import Py Run Env Collection Core Reads.

(** [manage_assessment_links], the list of links: each link of the
    logged-in doctor, and the URL shown beside it when it is neither used
    nor expired. *)
Definition manage_assessment_links (user_id : string)
  : M (list (stored Link.t * option string)) :=
  links <- get_doctor_links user_id ;;
  current_time <- datetime_now ;;
  ret (map (fun link =>
              (link,
               if negb (Link.used (fields link))
                  && (current_time <? Link.expires_at (fields link))
               then Some ("assessment?link=" ++ Link.link_id (fields link))%string
               else None))
           links).

(** [d[k] = d.get(k, 0) + 1] on a dictionary kept in insertion order. *)
Fixpoint bump (k : string) (d : list (string * nat)) : list (string * nat) :=
  match d with
  | [] => [(k, 1%nat)]
  | (k', n) :: rest =>
      if (k' =? k)%string then (k', S n) :: rest else (k', n) :: bump k rest
  end.

(** [d.get(k, 0)] *)
Fixpoint lookup (k : string) (d : list (string * nat)) : nat :=
  match d with
  | [] => 0%nat
  | (k', n) :: rest => if (k' =? k)%string then n else lookup k rest
  end.

Definition tally (keys : list string) : list (string * nat) :=
  fold_left (fun d k => bump k d) keys [].

Record counts : Type := Counts {
  total_patients : nat;
  total_assessments : nat;
  gender_dist : list (string * nat);
  phq9_dist : list (string * nat);
  gad7_dist : list (string * nat)
}.

(** The counts [create_dashboard] puts on the page.  (The average PHQ-9
    score, a rounded float, is left out.) *)
Definition create_dashboard (user_id : string) : M counts :=
  assessments <- get_assessments_by_doctor user_id default_limit ;;
  ret (Counts
         (List.length
            (nodup string_dec
               (map (fun a => Assessment.patient_id
                                (Assessment.d_patient (fields a)))
                    assessments)))
         (List.length assessments)
         (tally (map (fun a => Assessment.gender (Assessment.d_patient (fields a)))
                     assessments))
         (tally (map (fun a => Assessment.phq9_severity (Assessment.d_phq9 (fields a)))
                     assessments))
         (tally (map (fun a => Assessment.gad7_severity (Assessment.d_gad7 (fields a)))
                     assessments))).

End Pages.

(** ** Vocabulary for the store along a history *)

Module StoreState.

Definition assessment_ids (ds : list (stored Assessment.doc)) : list string :=
  map (fun s => Assessment.d_assessment_id (fields s)) ds.

(** The unique index on [assessment_id]. *)
Definition unique_assessment_ids (w : World) : Prop :=
  NoDup (assessment_ids (assessments w)).

(** The same stored link, except possibly for having been used since. *)
Definition later_version (l l' : stored Link.t) : Prop :=
  _id l' = _id l /\
  Link.link_id (fields l') = Link.link_id (fields l) /\
  Link.doctor_id (fields l') = Link.doctor_id (fields l) /\
  Link.created_at (fields l') = Link.created_at (fields l) /\
  Link.expires_at (fields l') = Link.expires_at (fields l) /\
  Link.patient_email (fields l') = Link.patient_email (fields l) /\
  Link.patient_name (fields l') = Link.patient_name (fields l) /\
  (Link.used (fields l) = true -> Link.used (fields l') = true).

(** What the validator of the [assessments] collection asks of the two
    questionnaires. *)
Definition questionnaires_valid (d : Assessment.data) : Prop :=
  List.length (Assessment.phq9_answers (Assessment.phq9_assessment d)) = 9%nat /\
  forallb Assessment.bson_int
          (Assessment.phq9_answers (Assessment.phq9_assessment d)) = true /\
  Assessment.bson_int (Assessment.phq9_score (Assessment.phq9_assessment d)) = true /\
  List.length (Assessment.gad7_answers (Assessment.gad7_assessment d)) = 7%nat /\
  forallb Assessment.bson_int
          (Assessment.gad7_answers (Assessment.gad7_assessment d)) = true /\
  Assessment.bson_int (Assessment.gad7_score (Assessment.gad7_assessment d)) = true.

End StoreState.

(** ** A sample submission *)

Module FormSamples.

Definition ann : Form.personal :=
  Form.Personal "Ann" 41 "Female" "English" "Graduation" "ann@example.org"
                "Clinic" "No".

Definition a_session : Form.session :=
  Form.Session ann (Some "P65f1-0001") [0; 1; 2; 3; 0; 1; 2; 3; 0]
               [("animals", "RIFF"); ("feeling", "")].

Definition gad7_answers : list Z := [3; 3; 3; 3; 3; 0; 0].

(** Every upload succeeds. *)
Definition drive (audio_type : string) : option string :=
  Some ("file-" ++ audio_type)%string.

End FormSamples.

(** ** Properties of the scoring engine *)

Module ScoringFacts.
Import Scoring.

Lemma fold_add_shift (l : list Z) (acc : Z) :
  fold_left Z.add l acc = acc + total l.
Proof.
  revert acc; induction l as [|a l IH]; intros acc; simpl.
  - lia.
  - rewrite IH. lia.
Qed.

Lemma sum_total (l : list Z) : sum l = total l.
Proof. unfold sum. rewrite fold_add_shift. lia. Qed.

Lemma total_bounds (l : list Z) :
  Forall (fun a => 0 <= a <= 3) l ->
  0 <= total l <= 3 * Z.of_nat (List.length l).
Proof.
  induction 1 as [|a l Ha _ IH]; simpl List.length; simpl total.
  - lia.
  - rewrite Nat2Z.inj_succ. lia.
Qed.

Lemma phq9_score_is_sum (l : list Z) :
  fst (fst (calculate_phq9_score l)) = sum l.
Proof.
  unfold calculate_phq9_score.
  repeat match goal with |- context [if ?b then _ else _] => destruct b end;
    reflexivity.
Qed.

Lemma phq9_follows_table (l : list Z) :
  phq9_table (sum l) (snd (fst (calculate_phq9_score l)))
             (snd (calculate_phq9_score l)).
Proof.
  unfold calculate_phq9_score, phq9_table.
  destruct (Z.leb_spec (sum l) 4); [cbn; repeat split; intros; lia|].
  destruct (Z.leb_spec (sum l) 9); [cbn; repeat split; intros; lia|].
  destruct (Z.leb_spec (sum l) 14); [cbn; repeat split; intros; lia|].
  destruct (Z.leb_spec (sum l) 19); cbn; repeat split; intros; lia.
Qed.

Lemma gad7_score_is_sum (l : list Z) :
  fst (calculate_gad7_score l) = sum l.
Proof.
  unfold calculate_gad7_score.
  repeat match goal with |- context [if ?b then _ else _] => destruct b end;
    reflexivity.
Qed.

Lemma gad7_follows_table (l : list Z) :
  gad7_table (sum l) (snd (calculate_gad7_score l)).
Proof.
  unfold calculate_gad7_score, gad7_table.
  destruct (Z.leb_spec (sum l) 4); [cbn; repeat split; intros; lia|].
  destruct (Z.leb_spec (sum l) 9); [cbn; repeat split; intros; lia|].
  destruct (Z.leb_spec (sum l) 14); cbn; repeat split; intros; lia.
Qed.

(** C1. For nine answers, each between 0 and 3, [calculate_phq9_score]
    returns the arithmetic sum of the answers, which lies in [0,27], and
    the severity and action of the PHQ-9 table: at most 4 is
    None-minimal, 5 to 9 Mild, 10 to 14 Moderate, 15 to 19 Moderately
    Severe and 20 or more Severe, each with its action. *)
Theorem phq9_score_correct (answers : list Z) :
  in_contract 9 answers ->
  exists severity action,
    calculate_phq9_score answers = (total answers, severity, action) /\
    0 <= total answers <= 27 /\
    phq9_table (total answers) severity action.
Proof.
  intros [Hlen Hrange].
  pose proof (phq9_score_is_sum answers) as Hs.
  pose proof (phq9_follows_table answers) as Ht.
  pose proof (total_bounds answers Hrange) as Hb.
  rewrite Hlen in Hb. rewrite sum_total in Hs, Ht.
  destruct (calculate_phq9_score answers) as [[score severity] action].
  cbn in Hs, Ht. subst score.
  exists severity, action. repeat split; try apply Ht; lia.
Qed.

Lemma phq9_score_correct_witness :
  in_contract 9 [3; 3; 3; 3; 3; 3; 3; 3; 3] /\
  exists severity action,
    calculate_phq9_score [3; 3; 3; 3; 3; 3; 3; 3; 3]
      = (27, severity, action) /\
    0 <= 27 <= 27 /\ phq9_table 27 severity action.
Proof.
  assert (H : in_contract 9 [3; 3; 3; 3; 3; 3; 3; 3; 3]).
  { split; [reflexivity | repeat constructor; lia]. }
  split; [exact H | exact (phq9_score_correct _ H)].
Defined.

(** The four PHQ-9 boundaries, evaluated on answer lists inside the
    contract. *)
Example phq9_boundary_4 :
  calculate_phq9_score [3; 1; 0; 0; 0; 0; 0; 0; 0] = (4, "None-minimal", "None").
Proof. reflexivity. Qed.

Example phq9_boundary_5 :
  calculate_phq9_score [3; 2; 0; 0; 0; 0; 0; 0; 0]
  = (5, "Mild", "Watchful waiting; repeat PHQ-9 at follow-up").
Proof. reflexivity. Qed.

Example phq9_boundary_9_10 :
  snd (fst (calculate_phq9_score [3; 3; 3; 0; 0; 0; 0; 0; 0])) = "Mild" /\
  snd (fst (calculate_phq9_score [3; 3; 3; 1; 0; 0; 0; 0; 0])) = "Moderate".
Proof. split; reflexivity. Qed.

Example phq9_boundary_14_15 :
  snd (fst (calculate_phq9_score [3; 3; 3; 3; 2; 0; 0; 0; 0])) = "Moderate" /\
  snd (fst (calculate_phq9_score [3; 3; 3; 3; 3; 0; 0; 0; 0]))
    = "Moderately Severe".
Proof. split; reflexivity. Qed.

Example phq9_boundary_19_20 :
  snd (fst (calculate_phq9_score [3; 3; 3; 3; 3; 3; 1; 0; 0]))
    = "Moderately Severe" /\
  snd (fst (calculate_phq9_score [3; 3; 3; 3; 3; 3; 2; 0; 0])) = "Severe".
Proof. split; reflexivity. Qed.

(** C4. For seven answers, each between 0 and 3, [calculate_gad7_score]
    returns the sum of the answers, which lies in [0,21], and the
    severity of the GAD-7 table: at most 4 Minimal anxiety, 5 to 9 Mild
    anxiety, 10 to 14 Moderate anxiety, 15 or more Severe anxiety. *)
Theorem gad7_score_correct (answers : list Z) :
  in_contract 7 answers ->
  exists severity,
    calculate_gad7_score answers = (total answers, severity) /\
    0 <= total answers <= 21 /\
    gad7_table (total answers) severity.
Proof.
  intros [Hlen Hrange].
  pose proof (gad7_score_is_sum answers) as Hs.
  pose proof (gad7_follows_table answers) as Ht.
  pose proof (total_bounds answers Hrange) as Hb.
  rewrite Hlen in Hb. rewrite sum_total in Hs, Ht.
  destruct (calculate_gad7_score answers) as [score severity].
  cbn in Hs, Ht. subst score.
  exists severity. repeat split; try apply Ht; lia.
Qed.

Lemma gad7_score_correct_witness :
  in_contract 7 [0; 0; 0; 0; 0; 0; 0] /\
  exists severity,
    calculate_gad7_score [0; 0; 0; 0; 0; 0; 0] = (0, severity) /\
    0 <= 0 <= 21 /\ gad7_table 0 severity.
Proof.
  assert (H : in_contract 7 [0; 0; 0; 0; 0; 0; 0]).
  { split; [reflexivity | repeat constructor; lia]. }
  split; [exact H | exact (gad7_score_correct _ H)].
Defined.

Example gad7_boundaries :
  calculate_gad7_score [3; 1; 0; 0; 0; 0; 0] = (4, "Minimal anxiety") /\
  calculate_gad7_score [3; 2; 0; 0; 0; 0; 0] = (5, "Mild anxiety") /\
  calculate_gad7_score [3; 3; 3; 0; 0; 0; 0] = (9, "Mild anxiety") /\
  calculate_gad7_score [3; 3; 3; 1; 0; 0; 0] = (10, "Moderate anxiety") /\
  calculate_gad7_score [3; 3; 3; 3; 2; 0; 0] = (14, "Moderate anxiety") /\
  calculate_gad7_score [3; 3; 3; 3; 3; 0; 0] = (15, "Severe anxiety").
Proof. repeat split; reflexivity. Qed.

(** C9. Neither scoring function validates its input: on every list of
    integers, whatever its length and whatever the values, each returns
    the raw sum and the bucket that sum falls into; nothing is rejected
    and nothing is clamped.  The empty list scores 0, None-minimal
    (PHQ-9) and Minimal anxiety (GAD-7). *)
Theorem scoring_unvalidated :
  (forall answers : list Z,
     exists severity action,
       calculate_phq9_score answers = (total answers, severity, action) /\
       phq9_table (total answers) severity action) /\
  (forall answers : list Z,
     exists severity,
       calculate_gad7_score answers = (total answers, severity) /\
       gad7_table (total answers) severity) /\
  calculate_phq9_score [] = (0, "None-minimal", "None") /\
  calculate_gad7_score [] = (0, "Minimal anxiety") /\
  calculate_phq9_score [7; -2; 40] = (45, "Severe",
    "Immediate initiation of pharmacotherapy and expedited referral to mental health specialist") /\
  calculate_gad7_score [-1; -1; -1; -1; -1; -1; -1; -1]
    = (-8, "Minimal anxiety").
Proof.
  split; [|split; [|repeat split; reflexivity]].
  - intros answers.
    pose proof (phq9_score_is_sum answers) as Hs.
    pose proof (phq9_follows_table answers) as Ht.
    rewrite sum_total in Hs, Ht.
    destruct (calculate_phq9_score answers) as [[score severity] action].
    cbn in Hs, Ht. subst score. exists severity, action. split; [reflexivity | exact Ht].
  - intros answers.
    pose proof (gad7_score_is_sum answers) as Hs.
    pose proof (gad7_follows_table answers) as Ht.
    rewrite sum_total in Hs, Ht.
    destruct (calculate_gad7_score answers) as [score severity].
    cbn in Hs, Ht. subst score. exists severity. split; [reflexivity | exact Ht].
Qed.

End ScoringFacts.

(** ** Properties of the link lifecycle *)

Module LinkFacts.
Import Py Run Env Collection Core Session LinkState.

Lemma live_query_spec (link_id : string) (now : Z) (s : stored Link.t) :
  live_query link_id now (fields s) = true <->
  Link.link_id (fields s) = link_id /\ live now s.
Proof.
  unfold live_query, live.
  rewrite !andb_true_iff, negb_true_iff, String.eqb_eq, Z.ltb_lt. tauto.
Qed.

(** [validate_link], run. *)
Lemma validate_link_eq (link_id : string) (w : World) :
  validate_link link_id w =
  match outage w with
  | None =>
      (Return (find (fun s => live_query link_id (clock w) (fields s))
                    (assessment_links w)), w)
  | Some msg =>
      (Return None,
       logged ("Error validating assessment link: " ++ msg) w)
  end.
Proof.
  cbv [validate_link try_except bind datetime_now links_find_one server
       get ret].
  destruct (outage w); reflexivity.
Qed.

(** [mark_link_used], run. *)
Lemma mark_link_used_eq (link_id : string) (w : World) :
  mark_link_used link_id w =
  match outage w with
  | None =>
      (Return true,
       with_links w
         (update_first (same_id link_id) consume (assessment_links w)))
  | Some msg =>
      (Return false, logged ("Error marking link as used: " ++ msg) w)
  end.
Proof.
  cbv [mark_link_used try_except bind links_update_one server get put ret].
  destruct (outage w); reflexivity.
Qed.

(** [create_link], run. *)
Lemma create_link_eq (d : string) (n : Z) (pe pn : option string) (w : World) :
  create_link d n pe pn w =
  let drawn := snd (object_id (snd (uuid4 w))) in
  match outage w with
  | Some msg =>
      (Return None, logged ("Error creating assessment link: " ++ msg) drawn)
  | None =>
      if existsb (fun s => Link.link_id (fields s)
                           =? uuid_source w (uuid_drawn w))%string
                 (assessment_links w)
      then (Return None,
            logged ("Error creating assessment link: "
                    ++ "E11000 duplicate key error: link_id") drawn)
      else (Return (Some (uuid_source w (uuid_drawn w))),
            with_links drawn (assessment_links w ++ [new_link d n pe pn w]))
  end.
Proof.
  cbv [create_link try_except bind uuid4 datetime_now links_insert_one
       object_id server get put ret raise snd fst uuid_source uuid_drawn
       oid_source oid_drawn clock outage assessment_links Link.link_id
       fields].
  destruct w as [c us ud os od o ls ds errs]; destruct o as [msg|].
  - reflexivity.
  - match goal with |- context [existsb ?f ?l] => destruct (existsb f l) end;
      reflexivity.
Qed.

(** *** How the collection of links can change *)

Lemma existsb_same_id (link_id : string) (ls : list (stored Link.t)) :
  existsb (fun s => Link.link_id (fields s) =? link_id)%string ls = false ->
  ~ In link_id (ids ls).
Proof.
  intros Hno Hin. unfold ids in Hin. apply in_map_iff in Hin.
  destruct Hin as [s [Hid Hs]].
  assert (Hyes : existsb (fun s => Link.link_id (fields s) =? link_id)%string ls
                 = true).
  { apply existsb_exists. exists s. split; [exact Hs|].
    apply String.eqb_eq; exact Hid. }
  congruence.
Qed.

Lemma save_assessment_frame (a : Assessment.data) (w : World) :
  let w' := snd (save_assessment a w) in
  assessment_links w' = assessment_links w /\ clock w' = clock w.
Proof.
  cbv [save_assessment try_except bind uuid4 datetime_now
       assessments_insert_one object_id server get put ret raise lift
       st_error with_assessments snd fst clock outage assessment_links
       assessments].
  destruct w as [c us ud os od o ls ds errs].
  destruct (Assessment.patient _) as [p|]; [destruct (Assessment.age p) as [v|];
    [destruct (int v)|]|];
    destruct o;
    repeat match goal with
           | |- context [Assessment.schema ?d] => destruct (Assessment.schema d)
           | |- context [existsb ?f ?l] => destruct (existsb f l)
           end;
    split; reflexivity.
Qed.

Lemma get_assessment_by_id_frame (i : string) (w : World) :
  snd (get_assessment_by_id i w) = w.
Proof.
  cbv [get_assessment_by_id assessments_find_one bind server get ret].
  destruct (outage w); reflexivity.
Qed.

Lemma generate_unique_patient_id_frame (d : string) (w : World) :
  snd (generate_unique_patient_id d w) = w.
Proof.
  cbv [generate_unique_patient_id assessments_find_one_desc bind server get
       ret lift try_except_index_value].
  destruct (outage w); [reflexivity|].
  destruct (greatest _ _) as [latest|]; [|reflexivity].
  destruct (index _ 1) as [field|e]; [destruct (int_of_str field) as [k|e]|];
    try destruct (is_index_or_value_error e); reflexivity.
Qed.

(** One event changes the links in one of the three ways above and never
    turns the clock back. *)
Lemma step_change (w : World) (e : event) :
  change (assessment_links w) (assessment_links (step w e)) /\
  clock w <= clock (step w e).
Proof.
  destruct e as [ms|msg| |d n pe pn|i|i|a|i|d]; cbn [step].
  - split; [constructor | cbn; lia].
  - split; [constructor | cbn; lia].
  - split; [constructor | cbn; lia].
  - rewrite create_link_eq. cbn zeta.
    destruct (outage w) as [msg|] eqn:Ho.
    + split; [constructor | cbn; lia].
    + destruct (existsb _ _) eqn:Hdup.
      * split; [constructor | cbn; lia].
      * split; [|cbn; lia].
        cbn. apply Added. cbn. apply existsb_same_id; exact Hdup.
  - rewrite validate_link_eq.
    destruct (outage w); split; try constructor; cbn; lia.
  - rewrite mark_link_used_eq.
    destruct (outage w); split; try (cbn; lia); cbn.
    + constructor.
    + apply (Consumed _ i).
  - destruct (save_assessment_frame a w) as [Hl Hc].
    rewrite Hl, Hc. split; [constructor | lia].
  - rewrite get_assessment_by_id_frame. split; [constructor | lia].
  - rewrite generate_unique_patient_id_frame. split; [constructor | lia].
Qed.

(** *** Invariants along a history *)

Lemma ids_update_first (link_id : string) (ls : list (stored Link.t)) :
  ids (update_first (same_id link_id) consume ls) = ids ls.
Proof.
  induction ls as [|s ls IH]; [reflexivity|].
  cbn [update_first]. destruct (same_id link_id s).
  - reflexivity.
  - unfold ids in *. cbn [map]. rewrite IH. reflexivity.
Qed.

Lemma change_unique (ls ls' : list (stored Link.t)) :
  change ls ls' -> NoDup (ids ls) -> NoDup (ids ls').
Proof.
  intros Hch Hnd. destruct Hch as [|i|s Hfresh].
  - exact Hnd.
  - rewrite ids_update_first. exact Hnd.
  - unfold ids. rewrite map_app. apply NoDup_app.
    + exact Hnd.
    + cbn. constructor; [intros []|constructor].
    + intros a Ha [Hb|[]]. cbn in Hb. subst a. exact (Hfresh Ha).
Qed.

Lemma unique_same_link (ls : list (stored Link.t)) (a b : stored Link.t) :
  NoDup (ids ls) -> In a ls -> In b ls ->
  Link.link_id (fields a) = Link.link_id (fields b) -> a = b.
Proof.
  induction ls as [|s ls IH]; intros Hnd Ha Hb Hid; [destruct Ha|].
  cbn [ids map] in Hnd. apply NoDup_cons_iff in Hnd. destruct Hnd as [Hs Hnd].
  destruct Ha as [Ha|Ha], Hb as [Hb|Hb].
  - congruence.
  - subst s. exfalso. apply Hs. rewrite Hid.
    apply (in_map (fun s => Link.link_id (fields s))). exact Hb.
  - subst s. exfalso. apply Hs. rewrite <- Hid.
    apply (in_map (fun s => Link.link_id (fields s))). exact Ha.
  - exact (IH Hnd Ha Hb Hid).
Qed.

Lemma in_update_first (q : stored Link.t -> bool) (ls : list (stored Link.t))
    (l : stored Link.t) :
  In l ls ->
  In l (update_first q consume ls) \/ In (consume l) (update_first q consume ls).
Proof.
  induction ls as [|s ls IH]; intros Hin; [destruct Hin|].
  cbn [update_first]. destruct Hin as [Heq|Hin].
  - subst s. destruct (q l); [right|left]; left; reflexivity.
  - destruct (q s).
    + left. right. exact Hin.
    + destruct (IH Hin) as [H|H]; [left|right]; right; exact H.
Qed.

Lemma change_has_spent (link_id : string) (now now' : Z)
    (ls ls' : list (stored Link.t)) :
  change ls ls' -> now <= now' ->
  has_spent link_id now ls -> has_spent link_id now' ls'.
Proof.
  intros Hch Hle [l [Hin [Hid Hsp]]].
  assert (Hsp' : spent now' l) by (destruct Hsp; [left|right]; [assumption|lia]).
  destruct Hch as [|i|s _].
  - exists l. auto.
  - destruct (in_update_first (same_id i) ls l Hin) as [H|H].
    + exists l. auto.
    + exists (consume l). split; [exact H|]. split; [exact Hid|].
      left. reflexivity.
  - exists l. split; [apply in_or_app; left; exact Hin | auto].
Qed.

Lemma run_invariants (history : list event) (w : World) (link_id : string) :
  (unique_link_ids w -> unique_link_ids (run history w)) /\
  (has_spent link_id (clock w) (assessment_links w) ->
   has_spent link_id (clock (run history w)) (assessment_links (run history w))).
Proof.
  revert w. induction history as [|e history IH]; intros w; [cbn; tauto|].
  cbn [run fold_left]. fold (run history (step w e)).
  destruct (step_change w e) as [Hch Hclk].
  destruct (IH (step w e)) as [IHu IHs]. split.
  - intros Hu. apply IHu. exact (change_unique _ _ Hch Hu).
  - intros Hs. apply IHs. exact (change_has_spent _ _ _ _ _ Hch Hclk Hs).
Qed.

(** Every store grown from an empty collection of links has unique link
    identifiers. *)
Lemma reachable_unique (history : list event) (w : World) :
  assessment_links w = [] -> unique_link_ids (run history w).
Proof.
  intros Hempty. apply (run_invariants history w EmptyString).
  unfold unique_link_ids. rewrite Hempty. constructor.
Qed.

Lemma spent_never_found (link_id : string) (w : World) :
  unique_link_ids w ->
  has_spent link_id (clock w) (assessment_links w) ->
  find (fun s => live_query link_id (clock w) (fields s)) (assessment_links w)
  = None.
Proof.
  intros Hu [l [Hin [Hid Hsp]]].
  destruct (find _ _) as [s|] eqn:Hfind; [|reflexivity].
  apply find_some in Hfind. destruct Hfind as [Hs Hq].
  apply live_query_spec in Hq. destruct Hq as [Hsid [Hunused Hfuture]].
  assert (s = l) by (apply (unique_same_link _ _ _ Hu Hs Hin); congruence).
  subst s. destruct Hsp as [Hused|Hpast]; [congruence | lia].
Qed.

Lemma validate_link_returns (link_id : string) (w : World) :
  fst (validate_link link_id w) = not_found \/
  exists l, fst (validate_link link_id w) = Return (Some l) /\
            outage w = None /\ stored_as link_id w l /\ live (clock w) l.
Proof.
  rewrite validate_link_eq. destruct (outage w); [left; reflexivity|].
  cbn [fst]. destruct (find _ _) as [s|] eqn:Hfind; [right | left; reflexivity].
  apply find_some in Hfind. destruct Hfind as [Hs Hq].
  apply live_query_spec in Hq. destruct Hq as [Hid Hlive].
  exists s. repeat split; try assumption; apply Hlive.
Qed.

Lemma spent_or_live (now : Z) (l : stored Link.t) : spent now l \/ live now l.
Proof.
  unfold spent, live. destruct (Link.used (fields l)); [left; left; reflexivity|].
  destruct (Z.lt_ge_cases now (Link.expires_at (fields l))); [right|left]; auto.
Qed.

Lemma spent_not_live (now : Z) (l : stored Link.t) :
  spent now l -> live now l -> False.
Proof. unfold spent, live. intros [H|H] [H1 H2]; [congruence | lia]. Qed.

(** C2. With the store reachable, [validate_link] returns a link exactly
    when that link is stored under the identifier, is unused, and the
    clock is strictly before its [expires_at]; it returns the one
    not-found value exactly when every link stored under the identifier
    is used or expired, which includes the case that none is stored; and
    it changes nothing.  The unique index on [link_id] makes "the stored
    link" well defined. *)
Theorem validate_link_iff (w : World) (link_id : string) :
  outage w = None ->
  unique_link_ids w ->
  (forall l, fst (validate_link link_id w) = Return (Some l) <->
             stored_as link_id w l /\ live (clock w) l) /\
  (fst (validate_link link_id w) = not_found <->
   forall l, stored_as link_id w l -> spent (clock w) l) /\
  snd (validate_link link_id w) = w.
Proof.
  intros Hup Hu. rewrite validate_link_eq, Hup. cbn [fst snd].
  split; [|split; [|reflexivity]].
  - intros l. split.
    + intros H. injection H as H. apply find_some in H. destruct H as [Hin Hq].
      apply live_query_spec in Hq. unfold stored_as. tauto.
    + intros [[Hin Hid] Hlive].
      destruct (find _ _) as [s|] eqn:Hfind.
      * apply find_some in Hfind. destruct Hfind as [Hs Hq].
        apply live_query_spec in Hq. destruct Hq as [Hsid _].
        assert (s = l) by (apply (unique_same_link _ _ _ Hu Hs Hin); congruence).
        subst s. reflexivity.
      * exfalso. pose proof (find_none _ _ Hfind l Hin) as Hq. cbv beta in Hq.
        assert (Hyes : live_query link_id (clock w) (fields l) = true)
          by (apply live_query_spec; auto).
        congruence.
  - unfold not_found. split.
    + intros H l [Hin Hid]. injection H as H.
      pose proof (find_none _ _ H l Hin) as Hq. cbv beta in Hq.
      destruct (spent_or_live (clock w) l) as [Hs|Hl]; [exact Hs|].
      assert (Hyes : live_query link_id (clock w) (fields l) = true)
        by (apply live_query_spec; auto).
      congruence.
    + intros Hall. destruct (find _ _) as [s|] eqn:Hfind; [|reflexivity].
      exfalso. apply find_some in Hfind. destruct Hfind as [Hs Hq].
      apply live_query_spec in Hq. destruct Hq as [Hsid Hlive].
      exact (spent_not_live _ _ (Hall s (conj Hs Hsid)) Hlive).
Qed.

Lemma one_link_unique : unique_link_ids Samples.one_link.
Proof. repeat constructor; cbn; tauto. Qed.

Lemma validate_link_iff_witness :
  fst (validate_link "link-1" Samples.one_link) = Return (Some Samples.a_link) /\
  fst (validate_link "link-2" Samples.one_link) = not_found.
Proof.
  destruct (validate_link_iff Samples.one_link "link-1" eq_refl one_link_unique)
    as [Hsome _].
  destruct (validate_link_iff Samples.one_link "link-2" eq_refl one_link_unique)
    as [_ [Hnone _]].
  split.
  - apply Hsome. repeat split; cbn; auto; lia.
  - apply Hnone. intros l [[Hl|[]] Hid]. subst l. discriminate Hid.
Defined.

Lemma consumed_is_used (link_id : string) (ls : list (stored Link.t))
    (l : stored Link.t) :
  In l ls -> Link.link_id (fields l) = link_id ->
  exists l', In l' (update_first (same_id link_id) consume ls) /\
             Link.link_id (fields l') = link_id /\
             Link.used (fields l') = true.
Proof.
  induction ls as [|s ls IH]; intros Hin Hid; [destruct Hin|].
  cbn [update_first]. destruct (same_id link_id s) eqn:Hs.
  - exists (consume s). split; [left; reflexivity|]. split; [|reflexivity].
    apply String.eqb_eq in Hs. exact Hs.
  - destruct Hin as [Heq|Hin].
    + subst s. unfold same_id in Hs. apply String.eqb_neq in Hs. contradiction.
    + destruct (IH Hin Hid) as [l' [H1 H2]]. exists l'. split; [right|]; auto.
Qed.

Lemma spent_stays_invalid (history : list event) (w : World) (link_id : string) :
  unique_link_ids w ->
  has_spent link_id (clock w) (assessment_links w) ->
  fst (validate_link link_id (run history w)) = not_found.
Proof.
  intros Hu Hs.
  destruct (run_invariants history w link_id) as [Hu' Hs'].
  rewrite validate_link_eq. destruct (outage (run history w)); [reflexivity|].
  cbn [fst]. rewrite (spent_never_found _ _ (Hu' Hu) (Hs' Hs)). reflexivity.
Qed.

(** C3. For a link stored under an identifier: once [mark_link_used] has
    succeeded on that identifier, or once the clock has reached the
    link's [expires_at], [validate_link] on that identifier returns
    not-found after every later history of events, whatever time has
    passed and whatever else was created, validated, consumed or saved. *)
Theorem spent_link_never_valid_again (w : World) (link_id : string)
    (l : stored Link.t) :
  unique_link_ids w ->
  stored_as link_id w l ->
  (fst (mark_link_used link_id w) = Return true ->
   forall history,
     fst (validate_link link_id (run history (snd (mark_link_used link_id w))))
     = not_found) /\
  (Link.expires_at (fields l) <= clock w ->
   forall history,
     fst (validate_link link_id (run history w)) = not_found).
Proof.
  intros Hu [Hin Hid]. split.
  - rewrite mark_link_used_eq. destruct (outage w) as [msg|]; [discriminate|].
    intros _ history. cbn [snd]. apply spent_stays_invalid.
    + unfold unique_link_ids. cbn [assessment_links with_links].
      rewrite ids_update_first. exact Hu.
    + cbn [assessment_links with_links clock].
      destruct (consumed_is_used link_id _ l Hin Hid) as [l' [H1 [H2 H3]]].
      exists l'. split; [exact H1|]. split; [exact H2|]. left. exact H3.
  - intros Hpast history. apply spent_stays_invalid; [exact Hu|].
    exists l. split; [exact Hin|]. split; [exact Hid|]. right. exact Hpast.
Qed.

Lemma spent_link_never_valid_again_witness :
  fst (validate_link "link-1"
         (run [Tick 5; CreateLink Samples.doctor 7 None None; ValidateLink "link-1"]
              (snd (mark_link_used "link-1" Samples.one_link))))
  = not_found.
Proof.
  refine (proj1 (spent_link_never_valid_again Samples.one_link "link-1"
                   Samples.a_link one_link_unique _) eq_refl _).
  split; [left; reflexivity | reflexivity].
Defined.

Lemma find_last {A : Type} (q : A -> bool) (ls : list A) (x : A) :
  (forall y, In y ls -> q y = false) -> q x = true ->
  find q (ls ++ [x]) = Some x.
Proof.
  induction ls as [|y ls IH]; intros Hno Hx; cbn.
  - rewrite Hx. reflexivity.
  - rewrite (Hno y (or_introl eq_refl)). apply IH; [|exact Hx].
    intros z Hz. apply Hno. right. exact Hz.
Qed.

Lemma existsb_none {A : Type} (q : A -> bool) (ls : list A) :
  existsb q ls = false -> forall y, In y ls -> q y = false.
Proof.
  intros Hno y Hy. destruct (q y) eqn:Hq; [|reflexivity].
  assert (existsb q ls = true) by (apply existsb_exists; eauto). congruence.
Qed.





(** The scenario of the specification: a link created for seven days with
    e-mail a@b.com validates, and no longer does once marked used. *)
Example link_scenario :
  let w1 := snd (create_link Samples.doctor 7 (Some "a@b.com") None Samples.fresh) in
  let id := Samples.uuid_nth 0 in
  option_map (fun l => (Link.patient_email (fields l), Link.used (fields l)))
    match fst (validate_link id w1) with Return r => r | Raise _ => None end
  = Some (Some "a@b.com", false) /\
  fst (mark_link_used id w1) = Return true /\
  fst (validate_link id (snd (mark_link_used id w1))) = not_found.
Proof. vm_compute. repeat split. Qed.

(** A link created with no days of validity is expired from the start. *)
Example zero_days_is_expired :
  fst (validate_link (Samples.uuid_nth 0)
         (snd (create_link Samples.doctor 0 None None Samples.fresh)))
  = not_found.
Proof. vm_compute. reflexivity. Qed.

Lemma with_links_same (w : World) : with_links w (assessment_links w) = w.
Proof. destruct w; reflexivity. Qed.

Lemma update_first_none {A : Type} (q : A -> bool) (f : A -> A) (ls : list A) :
  (forall y, In y ls -> q y = false) -> update_first q f ls = ls.
Proof.
  induction ls as [|y ls IH]; intros Hno; [reflexivity|].
  cbn. rewrite (Hno y (or_introl eq_refl)). f_equal. apply IH.
  intros z Hz. apply Hno. right. exact Hz.
Qed.

(** C10. With the store reachable [mark_link_used] returns [True]
    whatever the identifier; when no link is stored under it the update
    matches nothing, the store is left exactly as it was, and the result
    is still [True].  So [True] neither shows that a link existed nor that
    one went from unused to used. *)
Theorem mark_link_used_true_without_link (w : World) (link_id : string) :
  outage w = None ->
  fst (mark_link_used link_id w) = Return true /\
  ((forall l, ~ stored_as link_id w l) ->
   mark_link_used link_id w = (Return true, w)).
Proof.
  intros Hup. rewrite mark_link_used_eq, Hup. split; [reflexivity|].
  intros Hnone. rewrite update_first_none, with_links_same; [reflexivity|].
  intros y Hy. unfold same_id. apply String.eqb_neq. intros Hid.
  exact (Hnone y (conj Hy Hid)).
Qed.

Lemma mark_link_used_true_without_link_witness :
  mark_link_used "no-such-link" Samples.one_link = (Return true, Samples.one_link).
Proof.
  apply (mark_link_used_true_without_link Samples.one_link "no-such-link" eq_refl).
  intros l [[Hl|[]] Hid]. subst l. discriminate Hid.
Defined.



(** Neither operation ever raises, reachable store or not. *)
Lemma link_operations_never_raise (w : World) (doctor_id : string)
    (expiry_days : Z) (patient_email patient_name : option string)
    (link_id : string) :
  (exists r, fst (validate_link link_id w) = Return r) /\
  (exists r, fst (create_link doctor_id expiry_days patient_email
                              patient_name w) = Return r).
Proof.
  rewrite validate_link_eq, create_link_eq. cbv zeta.
  destruct (outage w); [split; eexists; reflexivity|].
  destruct (existsb _ _); split; eexists; reflexivity.
Qed.


End LinkFacts.

(** ** Properties of the Python runtime model *)

Module PyFacts.
Import Py Text.

Lemma only_digits_app (a b : string) :
  only_digits a = true -> only_digits b = true -> only_digits (a ++ b) = true.
Proof.
  induction a as [|c a IH]; intros Ha Hb; [exact Hb|].
  cbn in *. destruct (digit_of c); [auto | discriminate].
Qed.

Lemma only_digits_zeros (k : nat) : only_digits (zeros k) = true.
Proof. induction k as [|k IH]; [reflexivity | exact IH]. Qed.

Lemma only_digits_uint (d : Decimal.uint) :
  only_digits (NilEmpty.string_of_uint d) = true.
Proof. induction d; cbn; auto. Qed.


Lemma digit_not_space (c : ascii) (d : Z) :
  digit_of c = Some d -> is_space c = false.
Proof.
  unfold digit_of, is_space. intros H.
  destruct (Z.leb_spec 48 (Z.of_N (N_of_ascii c)));
    destruct (Z.leb_spec (Z.of_N (N_of_ascii c)) 57);
    cbn in H; try discriminate.
  apply orb_false_iff. split; apply andb_false_iff.
  - right. apply N.leb_gt. lia.
  - right. apply N.leb_gt. lia.
Qed.

Lemma digit_not_hyphen (c : ascii) (d : Z) :
  digit_of c = Some d -> Ascii.eqb c "-" = false.
Proof.
  intros H. apply Ascii.eqb_neq. intros ->. discriminate H.
Qed.

Lemma only_digits_no_hyphen (s : string) :
  only_digits s = true -> contains "-" s = false.
Proof.
  induction s as [|c s IH]; intros H; [reflexivity|].
  cbn in *. destruct (digit_of c) eqn:Hc; [|discriminate].
  rewrite (digit_not_hyphen c z Hc). cbn. auto.
Qed.

Lemma strip_only_digits (s : string) : only_digits s = true -> strip s = s.
Proof.
  intros H. unfold strip.
  assert (Hl : lstrip s = s).
  { destruct s as [|c s]; [reflexivity|]. cbn in *.
    destruct (digit_of c) eqn:Hc; [|discriminate].
    rewrite (digit_not_space c z Hc). reflexivity. }
  rewrite Hl. clear Hl.
  induction s as [|c s IH]; [reflexivity|].
  cbn in *. destruct (digit_of c) eqn:Hc; [|discriminate].
  rewrite (IH H). destruct s; [|reflexivity].
  rewrite (digit_not_space c z Hc). reflexivity.
Qed.

(** Reading back the decimal digits of a number. *)
Lemma digits_value_acc (d : Decimal.uint) (p : positive) :
  digits_value (NilEmpty.string_of_uint d) (Z.pos p) true
  = Some (Z.pos (Pos.of_uint_acc d p)).
Proof.
  revert p. induction d; intros p; cbn [NilEmpty.string_of_uint digits_value];
    [reflexivity|..];
    match goal with
    | |- context [digit_of ?c] =>
        let v := eval vm_compute in (digit_of c) in
        change (digit_of c) with v
    end; cbv beta iota; cbn [Pos.of_uint_acc];
    rewrite <- IHd; f_equal; lia.
Qed.

Lemma digits_value_uint (d : Decimal.uint) (b : bool) :
  digits_value (NilEmpty.string_of_uint d) 0 b
  = match d with
    | Decimal.Nil => if b then Some 0 else None
    | _ => Some (Z.of_N (Pos.of_uint d))
    end.
Proof.
  revert b. induction d; intros b; cbn [NilEmpty.string_of_uint digits_value];
    [reflexivity| |..].
  - change (digit_of "0") with (Some 0). cbv beta iota.
    change (10 * 0 + 0) with 0. rewrite IHd.
    destruct d; reflexivity.
  - change (digit_of "1") with (Some 1). cbv beta iota.
    change (10 * 0 + 1) with (Z.pos 1). rewrite digits_value_acc. reflexivity.
  - change (digit_of "2") with (Some 2). cbv beta iota.
    change (10 * 0 + 2) with (Z.pos 2). rewrite digits_value_acc. reflexivity.
  - change (digit_of "3") with (Some 3). cbv beta iota.
    change (10 * 0 + 3) with (Z.pos 3). rewrite digits_value_acc. reflexivity.
  - change (digit_of "4") with (Some 4). cbv beta iota.
    change (10 * 0 + 4) with (Z.pos 4). rewrite digits_value_acc. reflexivity.
  - change (digit_of "5") with (Some 5). cbv beta iota.
    change (10 * 0 + 5) with (Z.pos 5). rewrite digits_value_acc. reflexivity.
  - change (digit_of "6") with (Some 6). cbv beta iota.
    change (10 * 0 + 6) with (Z.pos 6). rewrite digits_value_acc. reflexivity.
  - change (digit_of "7") with (Some 7). cbv beta iota.
    change (10 * 0 + 7) with (Z.pos 7). rewrite digits_value_acc. reflexivity.
  - change (digit_of "8") with (Some 8). cbv beta iota.
    change (10 * 0 + 8) with (Z.pos 8). rewrite digits_value_acc. reflexivity.
  - change (digit_of "9") with (Some 9). cbv beta iota.
    change (10 * 0 + 9) with (Z.pos 9). rewrite digits_value_acc. reflexivity.
Qed.

Lemma digits_value_zeros (k : nat) (s : string) (b : bool) :
  digits_value (zeros k ++ s) 0 b
  = digits_value s 0 (match k with O => b | S _ => true end).
Proof.
  revert b. induction k as [|k IH]; intros b; [reflexivity|].
  cbn [zeros append digits_value]. change (digit_of "0") with (Some 0).
  cbv beta iota. change (10 * 0 + 0) with 0. rewrite IH. destruct k; reflexivity.
Qed.

Lemma to_uint_not_nil (n : N) : N.to_uint n <> Decimal.Nil.
Proof.
  destruct n as [|p]; [discriminate|]. apply DecimalPos.Unsigned.to_uint_nonnil.
Qed.

Lemma digits_value_zfill (width : nat) (n : Z) :
  0 <= n ->
  digits_value (zfill width (str_of_nonneg n)) 0 false = Some n.
Proof.
  intros Hn. unfold zfill, str_of_nonneg. rewrite digits_value_zeros.
  rewrite digits_value_uint.
  pose proof (to_uint_not_nil (Z.to_N n)) as Hnil.
  pose proof (DecimalN.Unsigned.of_to (Z.to_N n)) as Hback.
  unfold N.of_uint in Hback.
  destruct (N.to_uint (Z.to_N n)); [contradiction|..];
    rewrite Hback; f_equal; lia.
Qed.

Lemma only_digits_format (n : Z) : 0 <= n -> only_digits (format_04d n) = true.
Proof.
  intros Hn. unfold format_04d. destruct (Z.ltb_spec n 0); [lia|].
  unfold zfill. apply only_digits_app;
    [apply only_digits_zeros | apply only_digits_uint].
Qed.

Lemma only_digits_head (s : string) :
  only_digits s = true ->
  match s with
  | String "-" _ | String "+" _ => False
  | _ => True
  end.
Proof.
  destruct s as [|c s]; [exact (fun _ => I)|]. cbn. intros H.
  destruct (digit_of c) eqn:Hc; [|discriminate].
  destruct c as [[] [] [] [] [] [] [] []]; try exact I; discriminate Hc.
Qed.

(** [int] reads back what [:04d] wrote. *)
Lemma int_of_format (n : Z) : 0 <= n -> int_of_str (format_04d n) = Return n.
Proof.
  intros Hn. unfold int_of_str.
  rewrite (strip_only_digits _ (only_digits_format n Hn)).
  pose proof (only_digits_head _ (only_digits_format n Hn)) as Hhead.
  assert (Hval : digits_value (format_04d n) 0 false = Some n).
  { unfold format_04d. destruct (Z.ltb_spec n 0); [lia|].
    apply digits_value_zfill; exact Hn. }
  destruct (format_04d n) as [|c rest]; [rewrite Hval; reflexivity|].
  destruct c as [[] [] [] [] [] [] [] []]; try (rewrite Hval; reflexivity);
    contradiction.
Qed.






(** *** [split] *)

Lemma split_not_nil (sep : ascii) (s : string) : split sep s <> [].
Proof.
  destruct s as [|c s]; cbn; [discriminate|].
  destruct (Ascii.eqb c sep); [discriminate|].
  destruct (split sep s); discriminate.
Qed.

Lemma split_single (sep : ascii) (s : string) :
  contains sep s = false -> split sep s = [s].
Proof.
  induction s as [|c s IH]; intros H; [reflexivity|].
  cbn in *. apply orb_false_iff in H. destruct H as [Hc Hs].
  rewrite Hc, (IH Hs). reflexivity.
Qed.

Lemma split_stem (sep : ascii) (stem rest : string) :
  contains sep stem = false ->
  split sep (stem ++ String sep rest) = stem :: split sep rest.
Proof.
  induction stem as [|c stem IH]; intros H.
  - cbn. rewrite Ascii.eqb_refl. reflexivity.
  - cbn in *. apply orb_false_iff in H. destruct H as [Hc Hs].
    rewrite Hc, (IH Hs). reflexivity.
Qed.


(** *** [int] on a field without hyphen *)






(** *** The order on strings *)

Lemma ascii_compare_refl (c : ascii) : Ascii.compare c c = Eq.
Proof. unfold Ascii.compare. apply N.compare_refl. Qed.

Lemma ascii_compare_lt_trans (a b c : ascii) :
  Ascii.compare a b = Lt -> Ascii.compare b c = Lt -> Ascii.compare a c = Lt.
Proof.
  unfold Ascii.compare. rewrite !N.compare_lt_iff. apply N.lt_trans.
Qed.

Lemma compare_lt_trans (a b c : string) :
  String.compare a b = Lt -> String.compare b c = Lt -> String.compare a c = Lt.
Proof.
  revert b c. induction a as [|x a IH]; intros [|y b] [|z c]; cbn;
    try discriminate; try reflexivity.
  destruct (Ascii.compare x y) eqn:Hxy; try discriminate;
    destruct (Ascii.compare y z) eqn:Hyz; try discriminate; intros H1 H2.
  - apply Ascii.compare_eq_iff in Hxy, Hyz. subst.
    rewrite ascii_compare_refl. exact (IH _ _ H1 H2).
  - apply Ascii.compare_eq_iff in Hxy. subst. rewrite Hyz. reflexivity.
  - apply Ascii.compare_eq_iff in Hyz. subst. rewrite Hxy. reflexivity.
  - rewrite (ascii_compare_lt_trans _ _ _ Hxy Hyz). reflexivity.
Qed.

Lemma ltb_trans (a b c : string) :
  String.ltb a b = true -> String.ltb b c = true -> String.ltb a c = true.
Proof.
  unfold String.ltb. intros H1 H2.
  destruct (String.compare a b) eqn:Hab; try discriminate.
  destruct (String.compare b c) eqn:Hbc; try discriminate.
  rewrite (compare_lt_trans _ _ _ Hab Hbc). reflexivity.
Qed.

Lemma ltb_asym (a b : string) : String.ltb a b = true -> String.ltb b a = false.
Proof.
  unfold String.ltb. rewrite (String.compare_antisym b a).
  destruct (String.compare a b); cbn; congruence.
Qed.

Lemma ltb_irrefl (a : string) : String.ltb a a = false.
Proof.
  destruct (String.ltb a a) eqn:H; [|reflexivity].
  pose proof (ltb_asym _ _ H). congruence.
Qed.

Lemma ltb_neither (a b : string) :
  String.ltb a b = false -> String.ltb b a = false -> a = b.
Proof.
  unfold String.ltb. rewrite (String.compare_antisym b a).
  destruct (String.compare a b) eqn:H; cbn; try discriminate.
  intros _ _. apply String.compare_eq_iff. exact H.
Qed.

End PyFacts.

(** ** Properties of the patient identifier generator *)

Module PatientIdFacts.
Import Py Run Env Collection Core Text PatientIds PyFacts.

Lemma greatest_none {A : Type} (key : A -> string) (l : list A) :
  greatest key l = None -> l = [].
Proof.
  destruct l as [|x l]; [reflexivity|]. cbn.
  destruct (greatest key l) as [y|]; [|discriminate].
  destruct (String.ltb (key x) (key y)); discriminate.
Qed.

Lemma greatest_spec {A : Type} (key : A -> string) (l : list A) (x : A) :
  greatest key l = Some x ->
  In x l /\ forall y, In y l -> String.ltb (key x) (key y) = false.
Proof.
  revert x. induction l as [|x0 l IH]; intros x H; [discriminate|].
  cbn in H. destruct (greatest key l) as [y0|] eqn:Hrest.
  - destruct (IH y0 eq_refl) as [Hin Hmax].
    destruct (String.ltb (key x0) (key y0)) eqn:Hlt; injection H as <-.
    + split; [right; exact Hin|]. intros y [<-|Hy].
      * apply ltb_asym. exact Hlt.
      * exact (Hmax y Hy).
    + split; [left; reflexivity|]. intros y [<-|Hy]; [apply ltb_irrefl|].
      destruct (String.ltb (key x0) (key y)) eqn:Hxy; [|reflexivity].
      pose proof (Hmax y Hy) as Hy0.
      destruct (String.ltb (key y) (key y0)) eqn:Hyy0.
      * pose proof (ltb_trans _ _ _ Hxy Hyy0). congruence.
      * pose proof (ltb_neither _ _ Hy0 Hyy0) as Heq.
        rewrite <- Heq in Hxy. congruence.
  - injection H as <-. apply greatest_none in Hrest. subst l.
    split; [left; reflexivity|]. intros y [<-|[]]. apply ltb_irrefl.
Qed.

(** [generate_unique_patient_id], run on a reachable store. *)
Lemma generate_unique_patient_id_eq (doctor_id : string) (w : World) :
  outage w = None ->
  generate_unique_patient_id doctor_id w =
  (Return ("P" ++ prefix 4 doctor_id ++ "-"
           ++ format_04d
                (match greatest pid (filter (owned_by doctor_id) (assessments w)) with
                 | Some latest => number_of (pid latest)
                 | None => 0
                 end + 1))%string, w).
Proof.
  intros Hup.
  cbv [generate_unique_patient_id assessments_find_one_desc bind server get
       ret lift try_except_index_value].
  rewrite Hup.
  change (fun s : stored Assessment.doc =>
            match Assessment.d_doctor_id (fields s) with
            | Some owner => (owner =? doctor_id)%string
            | None => false
            end) with (owned_by doctor_id).
  change (fun s : stored Assessment.doc =>
            Assessment.patient_id (Assessment.d_patient (fields s))) with pid.
  destruct (greatest pid _) as [latest|]; [|reflexivity].
  unfold number_of. fold (pid latest).
  unfold index. destruct (nth_error _ 1) as [field|]; [|reflexivity].
  unfold int_of_str.
  destruct (strip field) as [|c r]; [reflexivity|].
  destruct c as [[] [] [] [] [] [] [] []];
    match goal with
    | |- context [digits_value ?b 0 false] =>
        destruct (digits_value b 0 false); reflexivity
    end.
Qed.


(** On an identifier written by the generator itself, with no hyphen
    before the separating one, the number read is the trailing number. *)
Lemma number_of_rendered (stem : string) (k : Z) :
  contains "-" stem = false -> 0 <= k ->
  number_of (stem ++ "-" ++ format_04d k) = k.
Proof.
  intros Hstem Hk. unfold number_of.
  change (stem ++ "-" ++ format_04d k)%string
    with (stem ++ String "-" (format_04d k))%string.
  rewrite (split_stem _ _ _ Hstem).
  rewrite (split_single _ _ (only_digits_no_hyphen _ (only_digits_format k Hk))).
  cbn [index nth_error]. rewrite (int_of_format k Hk). reflexivity.
Qed.

Lemma latest_is_greatest (doctor_id : string) (w : World)
    (s : stored Assessment.doc) :
  latest_for doctor_id w s ->
  exists g, greatest pid (filter (owned_by doctor_id) (assessments w)) = Some g /\
            pid g = pid s.
Proof.
  intros [Hin [Hown Hmax]].
  assert (Hs : In s (filter (owned_by doctor_id) (assessments w)))
    by (apply filter_In; auto).
  destruct (greatest pid _) as [g|] eqn:Hg.
  - exists g. split; [reflexivity|].
    destruct (greatest_spec _ _ _ Hg) as [Hgin Hgmax].
    apply filter_In in Hgin. destruct Hgin as [Hgin Hgown].
    apply ltb_neither; [exact (Hgmax s Hs) | exact (Hmax g Hgin Hgown)].
  - apply greatest_none in Hg. rewrite Hg in Hs. destruct Hs.
Qed.



(** The two scenarios of the specification: no record yet, and one record
    numbered 0001. *)
Example first_and_second_patient_id :
  fst (generate_unique_patient_id Samples.doctor Samples.fresh)
  = Return "P65f1-0001" /\
  fst (generate_unique_patient_id Samples.doctor
         (Samples.after_saving "P65f1-0001"))
  = Return "P65f1-0002".
Proof. split; vm_compute; reflexivity. Qed.

(** The field that is read is the second one, which is the trailing
    number only when no hyphen comes earlier. *)
Example second_field_is_read :
  number_of "Pab-7-0001" = 7 /\ number_of "P65f1-0041" = 41 /\
  number_of "P65f1" = 0 /\ number_of "P65f1-x1" = 0.
Proof. repeat split; vm_compute; reflexivity. Qed.


End PatientIdFacts.

(** ** Properties of the assessment record store *)

Module RecordFacts.
Import Py Run Env Collection Core.

Lemma schema_accepts (d : Assessment.data) (accepted : Assessment.doc) :
  Assessment.schema d = Some accepted ->
  Assessment.assessment_id d = Some (Assessment.d_assessment_id accepted) /\
  Assessment.created_at d = Some (Assessment.d_created_at accepted) /\
  exists p,
    Assessment.patient d = Some p /\
    Assessment.age p = Some (PyInt (Assessment.age (Assessment.d_patient accepted))).
Proof.
  unfold Assessment.schema.
  destruct (Assessment.assessment_id d) as [aid|]; [|discriminate].
  destruct (Assessment.created_at d) as [t|]; [|discriminate].
  destruct (Assessment.patient d) as [p|]; [|discriminate].
  destruct (Assessment.age p) as [[a|str]|] eqn:Hage; try discriminate.
  match goal with |- context [if ?c then _ else _] => destruct c end;
    [|discriminate].
  intros H. injection H as <-. cbn. repeat split. exists p. auto.
Qed.

(** Whenever [save_assessment] succeeds, what it returns is the [_id] the
    driver drew, and the record it appended carries the drawn uuid as
    [assessment_id], the clock reading as [created_at] and an integer
    age. *)
Lemma save_assessment_success (a : Assessment.data) (w : World) (r : string) :
  fst (save_assessment a w) = Return (Some r) ->
  r = oid_source w (oid_drawn w) /\
  exists d,
    assessments (snd (save_assessment a w))
    = (assessments w ++ [Stored r d])%list /\
    Assessment.d_assessment_id d = uuid_source w (uuid_drawn w) /\
    Assessment.d_created_at d = clock w.
Proof.
  cbv [save_assessment try_except bind uuid4 datetime_now
       assessments_insert_one object_id server get put ret raise lift
       st_error with_assessments snd fst clock outage assessment_links
       assessments uuid_source uuid_drawn oid_source oid_drawn].
  destruct w as [c us ud os od o ls ds errs].
  destruct (Assessment.patient _) as [p|]; [destruct (Assessment.age p) as [v|];
    [destruct (int v)|]|];
    destruct o; try discriminate;
    match goal with
    | |- context [Assessment.schema ?d] =>
        destruct (Assessment.schema d) as [accepted|] eqn:Hschema
    | _ => idtac
    end; try discriminate;
    match goal with
    | |- context [existsb ?f ?l] => destruct (existsb f l)
    | _ => idtac
    end; try discriminate;
    intros H; injection H as <-; (split; [reflexivity|]);
    exists accepted; (split; [reflexivity|]);
    apply schema_accepts in Hschema;
    destruct Hschema as [Hid [Hat _]]; cbn in Hid, Hat;
    injection Hid as <-; injection Hat as <-; split; reflexivity.
Qed.

(** C8 fails on the code.  [save_assessment] does give the record a fresh
    [assessment_id] and the clock reading as [created_at], and stores the
    age as an integer; but it returns the [_id] that the store gave the
    document, not the [assessment_id].  [get_assessment_by_id] searches
    by [assessment_id], so looking up the returned value finds nothing,
    while looking up the [assessment_id] finds the record. *)
Theorem save_returns_store_id :
  let saved := save_assessment (Samples.a_record "P65f1-0001") Samples.fresh in
  fst saved = Return (Some (Samples.oid_nth 0)) /\
  map (fun s => (_id s, Assessment.d_assessment_id (fields s),
                 Assessment.d_created_at (fields s),
                 Assessment.age (Assessment.d_patient (fields s))))
      (assessments (snd saved))
  = [(Samples.oid_nth 0, Samples.uuid_nth 0, 1000, 41)] /\
  Samples.oid_nth 0 <> Samples.uuid_nth 0 /\
  fst (get_assessment_by_id (Samples.oid_nth 0) (snd saved)) = Return None /\
  fst (get_assessment_by_id (Samples.uuid_nth 0) (snd saved))
  = Return (Some (Samples.saved_record "P65f1-0001")).
Proof.
  vm_compute. repeat split; discriminate.
Qed.

End RecordFacts.

(** ** Properties of sorted and limited reads *)

Module QueryFacts.
Import Py Run Env Collection Query.

Section Sorting.
Context {A : Type} (key : A -> Z).

Lemma insert_desc_perm (x : A) (l : list A) :
  Permutation (insert_desc key x l) (x :: l).
Proof.
  induction l as [|y l IH]; cbn; [reflexivity|].
  destruct (key y <=? key x); [reflexivity|].
  rewrite IH. apply perm_swap.
Qed.

Lemma sort_desc_perm (l : list A) : Permutation (sort_desc key l) l.
Proof.
  induction l as [|x l IH]; cbn; [constructor|].
  rewrite insert_desc_perm. constructor. exact IH.
Qed.

Lemma insert_desc_sorted (x : A) (l : list A) :
  StronglySorted (newest_first key) l ->
  StronglySorted (newest_first key) (insert_desc key x l).
Proof.
  induction 1 as [|y l Hs IH Hy]; cbn.
  - constructor; constructor.
  - destruct (Z.leb_spec (key y) (key x)) as [Hle|Hgt].
    + constructor; [constructor; assumption|].
      constructor; [exact Hle|].
      apply Forall_forall. intros z Hz.
      rewrite Forall_forall in Hy. specialize (Hy z Hz).
      unfold newest_first in *. lia.
    + constructor; [exact IH|].
      apply Forall_forall. intros z Hz.
      apply (Permutation_in _ (insert_desc_perm x l)) in Hz.
      destruct Hz as [<-|Hz].
      * unfold newest_first. lia.
      * rewrite Forall_forall in Hy. exact (Hy z Hz).
Qed.

Lemma sort_desc_sorted (l : list A) : StronglySorted (newest_first key) (sort_desc key l).
Proof.
  induction l as [|x l IH]; cbn; [constructor|].
  apply insert_desc_sorted. exact IH.
Qed.

Lemma sorted_app_cross (l1 l2 : list A) :
  StronglySorted (newest_first key) (l1 ++ l2) ->
  StronglySorted (newest_first key) l1 /\
  forall a b, In a l1 -> In b l2 -> key b <= key a.
Proof.
  induction l1 as [|x l1 IH]; cbn; intros H.
  - split; [constructor | intros a b []].
  - inversion H as [|? ? Hs Hx]; subst. destruct (IH Hs) as [Hs1 Hcross].
    rewrite Forall_forall in Hx. split.
    + constructor; [exact Hs1|]. apply Forall_forall. intros z Hz.
      apply Hx. apply in_or_app. left. exact Hz.
    + intros a b [<-|Ha] Hb.
      * apply (Hx b). apply in_or_app. right. exact Hb.
      * exact (Hcross a b Ha Hb).
Qed.

(** What a sorted and limited read returns, for any filter. *)
Lemma limited_sorted_filter (q : A -> bool) (limit : nat) (l : list A) :
  let rs := limited limit (sort_desc key (filter q l)) in
  (forall r, In r rs -> In r l /\ q r = true) /\
  StronglySorted (newest_first key) rs /\
  exists dropped,
    Permutation (rs ++ dropped) (filter q l) /\
    (forall r s, In r rs -> In s dropped -> key s <= key r) /\
    (limit = 0%nat -> dropped = []) /\
    (limit <> 0%nat ->
     List.length rs = Nat.min limit (List.length (filter q l))).
Proof.
  intros rs.
  set (sorted := sort_desc key (filter q l)) in *.
  assert (Hsplit : exists dropped,
             sorted = (rs ++ dropped)%list /\
             (limit = 0%nat -> dropped = []) /\
             (limit <> 0%nat -> List.length rs = Nat.min limit (List.length sorted))).
  { subst rs. unfold limited. destruct limit as [|n].
    - exists []. split; [symmetry; apply app_nil_r|]. split; [reflexivity|].
      intros H; contradiction.
    - exists (skipn (S n) sorted). split; [symmetry; apply firstn_skipn|].
      split; [discriminate|]. intros _. apply length_firstn. }
  destruct Hsplit as [dropped [Heq [Hzero Hlen]]].
  pose proof (sort_desc_perm (filter q l)) as Hperm. fold sorted in Hperm.
  pose proof (sort_desc_sorted (filter q l)) as Hsorted. fold sorted in Hsorted.
  rewrite Heq in Hperm, Hsorted.
  destruct (sorted_app_cross _ _ Hsorted) as [Hrs Hcross].
  split; [|split; [exact Hrs|]].
  - intros r Hr. apply filter_In. apply (Permutation_in _ Hperm).
    apply in_or_app. left. exact Hr.
  - exists dropped. split; [exact Hperm|]. split; [exact Hcross|].
    split; [exact Hzero|]. intros Hpos. rewrite (Hlen Hpos).
    f_equal. apply Permutation_length. rewrite Heq. exact Hperm.
Qed.

End Sorting.

End QueryFacts.

(** ** Properties of the read side *)

Module ReadFacts.
Import Py Run Env Collection Core Query Reads LinkState PatientIds QueryFacts.

Lemma assessments_find_desc_eq (q : Assessment.doc -> bool) (limit : nat)
    (w : World) :
  assessments_find_desc q limit w =
  match outage w with
  | Some msg => (Raise (PyMongoError msg), w)
  | None =>
      (Return (limited limit
                 (sort_desc (fun s => Assessment.d_created_at (fields s))
                    (filter (fun s => q (fields s)) (assessments w)))), w)
  end.
Proof.
  cbv [assessments_find_desc bind server get ret].
  destruct (outage w); reflexivity.
Qed.

Lemma links_find_desc_eq (q : Link.t -> bool) (w : World) :
  links_find_desc q w =
  match outage w with
  | Some msg => (Raise (PyMongoError msg), w)
  | None =>
      (Return (sort_desc (fun s => Link.created_at (fields s))
                 (filter (fun s => q (fields s)) (assessment_links w))), w)
  end.
Proof.
  cbv [links_find_desc bind server get ret].
  destruct (outage w); reflexivity.
Qed.

Lemma doctor_links_run (w : World) (doctor_id : string) :
  outage w = None ->
  exists links,
    get_doctor_links doctor_id w = (Return links, w) /\
    (forall l, In l links <->
               In l (assessment_links w) /\ Link.doctor_id (fields l) = doctor_id).
Proof.
  intros Hup. unfold get_doctor_links. rewrite links_find_desc_eq, Hup.
  eexists. split; [reflexivity|]. intros l. split.
  - intros Hl. apply (Permutation_in _ (sort_desc_perm _ _)) in Hl.
    apply filter_In in Hl. rewrite String.eqb_eq in Hl. exact Hl.
  - intros [Hin Hd].
    apply (Permutation_in _ (Permutation_sym (sort_desc_perm _ _))).
    apply filter_In. rewrite String.eqb_eq. auto.
Qed.

(** X1. On a reachable store [get_doctor_links] returns exactly the
    links of the doctor, each as often as it is stored, used and expired
    ones included, the most recently created first; and it changes
    nothing. *)
Theorem doctor_links_all_newest_first (w : World) (doctor_id : string) :
  outage w = None ->
  exists links,
    get_doctor_links doctor_id w = (Return links, w) /\
    Permutation links
      (filter (fun s => (Link.doctor_id (fields s) =? doctor_id)%string)
              (assessment_links w)) /\
    StronglySorted (newest_first (fun s => Link.created_at (fields s))) links /\
    (forall l, In l links <->
               In l (assessment_links w) /\ Link.doctor_id (fields l) = doctor_id).
Proof.
  intros Hup. unfold get_doctor_links. rewrite links_find_desc_eq, Hup.
  eexists. split; [reflexivity|].
  split; [apply sort_desc_perm|]. split; [apply sort_desc_sorted|].
  intros l. split.
  - intros Hl. apply (Permutation_in _ (sort_desc_perm _ _)) in Hl.
    apply filter_In in Hl. rewrite String.eqb_eq in Hl. exact Hl.
  - intros [Hin Hd].
    apply (Permutation_in _ (Permutation_sym (sort_desc_perm _ _))).
    apply filter_In. rewrite String.eqb_eq. auto.
Qed.

Lemma doctor_links_all_newest_first_witness :
  exists links,
    get_doctor_links Samples.doctor Samples.one_link
    = (Return links, Samples.one_link) /\
    In Samples.a_link links.
Proof.
  destruct (doctor_links_all_newest_first Samples.one_link Samples.doctor eq_refl)
    as [links [Hrun [_ [_ Hiff]]]].
  exists links. split; [exact Hrun|]. apply Hiff.
  split; [left; reflexivity | reflexivity].
Defined.

(** X2. On a reachable store [get_assessments_by_doctor] returns records
    of that doctor only, newest first; with a limit of [n > 0] it returns
    the [n] newest (all of them when there are fewer), nothing it leaves
    out being newer than anything it returns; with limit 0 it leaves
    nothing out. *)
Theorem assessments_by_doctor_newest_limited (w : World) (doctor_id : string)
    (limit : nat) :
  outage w = None ->
  exists records dropped,
    get_assessments_by_doctor doctor_id limit w = (Return records, w) /\
    (forall r, In r records ->
               In r (assessments w) /\
               Assessment.d_doctor_id (fields r) = Some doctor_id) /\
    StronglySorted
      (newest_first (fun s => Assessment.d_created_at (fields s))) records /\
    Permutation (records ++ dropped)
                (filter (owned_by doctor_id) (assessments w)) /\
    (forall r s, In r records -> In s dropped ->
                 Assessment.d_created_at (fields s)
                 <= Assessment.d_created_at (fields r)) /\
    (limit = 0%nat -> dropped = []) /\
    (limit <> 0%nat ->
     List.length records
     = Nat.min limit (List.length (filter (owned_by doctor_id) (assessments w)))).
Proof.
  intros Hup. unfold get_assessments_by_doctor.
  rewrite assessments_find_desc_eq, Hup.
  change (fun s : stored Assessment.doc =>
            match Assessment.d_doctor_id (fields s) with
            | Some owner => (owner =? doctor_id)%string
            | None => false
            end) with (owned_by doctor_id).
  destruct (limited_sorted_filter
              (fun s : stored Assessment.doc => Assessment.d_created_at (fields s))
              (owned_by doctor_id) limit (assessments w))
    as [Hin [Hsorted [dropped [Hperm [Hcross [Hzero Hlen]]]]]].
  eexists. exists dropped. split; [reflexivity|].
  split; [|repeat split; assumption].
  intros r Hr. destruct (Hin r Hr) as [Hstore Hown]. split; [exact Hstore|].
  unfold owned_by in Hown.
  destruct (Assessment.d_doctor_id (fields r)) as [owner|]; [|discriminate].
  apply String.eqb_eq in Hown. congruence.
Qed.

Lemma assessments_by_doctor_newest_limited_witness :
  exists records,
    get_assessments_by_doctor Samples.doctor default_limit
      (Samples.after_saving "P65f1-0001")
    = (Return records, Samples.after_saving "P65f1-0001") /\
    List.length records = 1%nat.
Proof.
  destruct (assessments_by_doctor_newest_limited
              (Samples.after_saving "P65f1-0001") Samples.doctor default_limit
              eq_refl)
    as [records [dropped [Hrun [_ [_ [_ [_ [_ Hlen]]]]]]]].
  exists records. split; [exact Hrun|]. apply Hlen. discriminate.
Defined.

(** X3. [get_patient_history] selects by patient identifier alone: on a
    reachable store what it returns, together with what the limit cuts
    off, is every stored record with that identifier, whichever doctor
    the record belongs to, and no other record; the newest come first and
    are the ones kept. *)
Theorem patient_history_ignores_doctor (w : World) (patient_id : string)
    (limit : nat) :
  outage w = None ->
  exists records dropped,
    get_patient_history patient_id limit w = (Return records, w) /\
    StronglySorted
      (newest_first (fun s => Assessment.d_created_at (fields s))) records /\
    (forall r, In r (records ++ dropped) <->
               In r (assessments w) /\ pid r = patient_id) /\
    (forall r s, In r records -> In s dropped ->
                 Assessment.d_created_at (fields s)
                 <= Assessment.d_created_at (fields r)) /\
    (limit = 0%nat -> dropped = []) /\
    (limit <> 0%nat -> (List.length records <= limit)%nat).
Proof.
  intros Hup. unfold get_patient_history.
  rewrite assessments_find_desc_eq, Hup.
  set (q := fun s : stored Assessment.doc =>
              (Assessment.patient_id (Assessment.d_patient (fields s))
               =? patient_id)%string).
  destruct (limited_sorted_filter
              (fun s : stored Assessment.doc => Assessment.d_created_at (fields s))
              q limit (assessments w))
    as [Hin [Hsorted [dropped [Hperm [Hcross [Hzero Hlen]]]]]].
  eexists. exists dropped. split; [reflexivity|]. split; [exact Hsorted|].
  split; [|split; [exact Hcross|split; [exact Hzero|]]].
  - intros r. split.
    + intros Hr. apply (Permutation_in _ Hperm) in Hr. apply filter_In in Hr.
      destruct Hr as [Hstore Hq]. split; [exact Hstore|].
      apply String.eqb_eq in Hq. exact Hq.
    + intros [Hstore Hpid]. apply (Permutation_in _ (Permutation_sym Hperm)).
      apply filter_In. split; [exact Hstore|]. apply String.eqb_eq. exact Hpid.
  - intros Hpos. rewrite (Hlen Hpos). apply Nat.le_min_l.
Qed.

Lemma patient_history_ignores_doctor_witness :
  exists records,
    get_patient_history "P65f1-0001" default_limit
      (Samples.after_saving "P65f1-0001")
    = (Return records, Samples.after_saving "P65f1-0001") /\
    (List.length records <= default_limit)%nat.
Proof.
  destruct (patient_history_ignores_doctor (Samples.after_saving "P65f1-0001")
              "P65f1-0001" default_limit eq_refl)
    as [records [dropped [Hrun [_ [_ [_ [_ Hlen]]]]]]].
  exists records. split; [exact Hrun|]. apply Hlen. discriminate.
Defined.

(** X4. [get_assessments_by_date_range] returns, newest first, exactly
    the stored records created from [start_date] to [end_date], both
    ends included; it narrows them to one doctor only when a non-empty
    doctor identifier is given, so that no identifier and the empty
    string both return the records of every doctor. *)
Theorem date_range_inclusive (w : World) (start_date end_date : Z)
    (doctor_id : option string) :
  outage w = None ->
  exists records,
    get_assessments_by_date_range start_date end_date doctor_id w
    = (Return records, w) /\
    StronglySorted
      (newest_first (fun s => Assessment.d_created_at (fields s))) records /\
    (forall r, In r records <->
               In r (assessments w) /\
               start_date <= Assessment.d_created_at (fields r) <= end_date /\
               match doctor_id with
               | None | Some EmptyString => True
               | Some wanted => Assessment.d_doctor_id (fields r) = Some wanted
               end).
Proof.
  intros Hup. unfold get_assessments_by_date_range.
  rewrite assessments_find_desc_eq, Hup.
  match goal with
  | |- context [filter ?f (assessments w)] => set (q := f)
  end.
  destruct (limited_sorted_filter
              (fun s : stored Assessment.doc => Assessment.d_created_at (fields s))
              q 0 (assessments w))
    as [Hin [Hsorted [dropped [Hperm [_ [Hzero _]]]]]].
  rewrite (Hzero eq_refl), app_nil_r in Hperm.
  eexists. split; [reflexivity|]. split; [exact Hsorted|].
  assert (Hq : forall r, q r = true <->
             start_date <= Assessment.d_created_at (fields r) <= end_date /\
             match doctor_id with
             | None | Some EmptyString => True
             | Some wanted => Assessment.d_doctor_id (fields r) = Some wanted
             end).
  { intros r. subst q. cbv beta.
    destruct doctor_id as [[|c wanted]|]; cbn [truthy].
    - rewrite andb_true_iff, !Z.leb_le. tauto.
    - rewrite !andb_true_iff, !Z.leb_le.
      destruct (Assessment.d_doctor_id (fields r)) as [owner|].
      + rewrite String.eqb_eq. split.
        * intros [H1 H2]. split; [exact H1 | congruence].
        * intros [H1 H2]. split; [exact H1 | congruence].
      + split; [intros [_ H]; discriminate | intros [_ H]; discriminate].
    - rewrite andb_true_iff, !Z.leb_le. tauto. }
  intros r. split.
  - intros Hr. destruct (Hin r Hr) as [Hstore Hqr]. split; [exact Hstore|].
    apply Hq. exact Hqr.
  - intros [Hstore Hcond]. apply (Permutation_in _ (Permutation_sym Hperm)).
    apply filter_In. split; [exact Hstore|]. apply Hq. exact Hcond.
Qed.

Lemma date_range_inclusive_witness :
  exists records,
    get_assessments_by_date_range 1000 1000 (Some "")
      (Samples.after_saving "P65f1-0001")
    = (Return records, Samples.after_saving "P65f1-0001") /\
    In (Samples.saved_record "P65f1-0001") records.
Proof.
  destruct (date_range_inclusive (Samples.after_saving "P65f1-0001") 1000 1000
              (Some "") eq_refl) as [records [Hrun [_ Hiff]]].
  exists records. split; [exact Hrun|]. apply Hiff.
  split; [left; reflexivity|]. split; [cbn; lia | exact I].
Defined.

(** X5. None of the reads has an exception handler: when the store is
    unreachable each of them raises the driver's error to its caller,
    shows no message and changes nothing. *)
Theorem reads_raise_when_unreachable (w : World) (msg : string)
    (doctor_id patient_id assessment_id : string) (limit : nat)
    (start_date end_date : Z) (wanted : option string) :
  outage w = Some msg ->
  get_doctor_links doctor_id w = (Raise (PyMongoError msg), w) /\
  get_assessments_by_doctor doctor_id limit w = (Raise (PyMongoError msg), w) /\
  get_patient_history patient_id limit w = (Raise (PyMongoError msg), w) /\
  get_assessment_by_id assessment_id w = (Raise (PyMongoError msg), w) /\
  get_assessments_by_date_range start_date end_date wanted w
  = (Raise (PyMongoError msg), w) /\
  generate_unique_patient_id doctor_id w = (Raise (PyMongoError msg), w).
Proof.
  intros Hdown.
  unfold get_doctor_links, get_assessments_by_doctor, get_patient_history,
    get_assessments_by_date_range.
  rewrite links_find_desc_eq, !assessments_find_desc_eq, Hdown.
  repeat split.
  - cbv [get_assessment_by_id assessments_find_one bind server get ret].
    rewrite Hdown. reflexivity.
  - cbv [generate_unique_patient_id assessments_find_one_desc bind server get
         ret].
    rewrite Hdown. reflexivity.
Qed.

Lemma reads_raise_when_unreachable_witness :
  get_doctor_links Samples.doctor Samples.unreachable
  = (Raise (PyMongoError "connection refused"), Samples.unreachable) /\
  generate_unique_patient_id Samples.doctor Samples.unreachable
  = (Raise (PyMongoError "connection refused"), Samples.unreachable).
Proof.
  destruct (reads_raise_when_unreachable Samples.unreachable "connection refused"
              Samples.doctor "P65f1-0001" "x" 100 0 1 None eq_refl)
    as [H1 [_ [_ [_ [_ H6]]]]].
  split; [exact H1 | exact H6].
Defined.

End ReadFacts.

(** ** Properties of saving and of the store along a history *)

Module StoreFacts.
Import Py Run Env Collection Core Session LinkState PatientIds StoreState LinkFacts.

(** The document [save_assessment] hands to the store: the caller's
    dictionary with the clock reading, the drawn uuid and the coerced
    age. *)
Lemma save_assessment_cases (a : Assessment.data) (w : World) :
  (exists msg,
     fst (save_assessment a w) = Return None /\
     assessments (snd (save_assessment a w)) = assessments w /\
     st_errors (snd (save_assessment a w))
     = ("Error saving assessment: " ++ msg)%string :: st_errors w) \/
  (exists p v z d,
     outage w = None /\
     Assessment.patient a = Some p /\ Assessment.age p = Some v /\
     int v = Return z /\
     Assessment.schema
       (set_age (set_assessment_id (set_created_at a (clock w))
                                   (uuid_source w (uuid_drawn w))) p z)
     = Some d /\
     existsb (fun s => Assessment.d_assessment_id (fields s)
                       =? Assessment.d_assessment_id d)%string
             (assessments w) = false /\
     fst (save_assessment a w) = Return (Some (oid_source w (oid_drawn w))) /\
     assessments (snd (save_assessment a w))
     = (assessments w ++ [Stored (oid_source w (oid_drawn w)) d])%list /\
     st_errors (snd (save_assessment a w)) = st_errors w).
Proof.
  cbv [save_assessment try_except bind uuid4 datetime_now
       assessments_insert_one object_id server get put ret raise lift
       st_error with_assessments snd fst clock outage assessment_links
       assessments uuid_source uuid_drawn oid_source oid_drawn st_errors].
  destruct w as [c us ud os od o ls ds errs].
  cbn [Assessment.patient set_assessment_id set_created_at].
  destruct (Assessment.patient a) as [p|] eqn:Hp.
  - destruct (Assessment.age p) as [v|] eqn:Hv.
    + destruct (int v) as [z|e] eqn:Hz.
      * destruct o as [msg|]; [left; eexists; repeat split|].
        destruct (Assessment.schema _) as [d|] eqn:Hd;
          [|left; eexists; repeat split].
        destruct (existsb _ ds) eqn:Hdup; [left; eexists; repeat split|].
        right. exists p, v, z, d. repeat split; assumption.
      * left. eexists. repeat split.
    + destruct o as [msg|]; [left; eexists; repeat split|].
      destruct (Assessment.schema _) as [d|] eqn:Hd;
        [|left; eexists; repeat split].
      exfalso. apply RecordFacts.schema_accepts in Hd.
      destruct Hd as [_ [_ [p' [Hp' Hage]]]]. cbn in Hp'.
      rewrite Hp in Hp'. injection Hp' as <-. congruence.
  - destruct o as [msg|]; [left; eexists; repeat split|].
    destruct (Assessment.schema _) as [d|] eqn:Hd;
      [|left; eexists; repeat split].
    exfalso. apply RecordFacts.schema_accepts in Hd.
    destruct Hd as [_ [_ [p' [Hp' _]]]]. cbn in Hp'. congruence.
Qed.

Lemma schema_of_candidate (a : Assessment.data) (t : Z) (u : string)
    (p : Assessment.patient_info (option value)) (z : Z) (d : Assessment.doc) :
  Assessment.schema (set_age (set_assessment_id (set_created_at a t) u) p z)
  = Some d <->
  (Assessment.bson_int z = true /\
   Assessment.one_of ["Male"; "Female"; "Other"] (Assessment.gender p) = true /\
   Assessment.one_of ["Yes"; "No"] (Assessment.medication p) = true /\
   questionnaires_valid a) /\
  d = Assessment.Doc u t (Assessment.with_age p z) (Assessment.audio_files a)
        (Assessment.phq9_assessment a) (Assessment.gad7_assessment a)
        (Assessment.doctor_id a).
Proof.
  unfold Assessment.schema, questionnaires_valid. cbn.
  match goal with |- context [if ?c then _ else _] => destruct c eqn:Hc end.
  - rewrite !andb_true_iff in Hc. rewrite !Nat.eqb_eq in Hc.
    split.
    + intros H. injection H as <-. split; [tauto | reflexivity].
    + intros [_ ->]. reflexivity.
  - split; [discriminate|]. intros [[H1 [H2 [H3 [H4 [H5 [H6 [H7 [H8 H9]]]]]]]] _].
    apply Nat.eqb_eq in H4, H7.
    rewrite H1, H2, H3, H4, H5, H6, H7, H8, H9 in Hc. discriminate Hc.
Qed.

(** X6. [save_assessment] never raises and never half-saves.  Either it
    returns [None], having shown one error message and left the stored
    assessments as they were; or it returns an identifier, having shown
    nothing and appended exactly one record.  The links are untouched
    either way. *)
Theorem save_assessment_all_or_nothing (a : Assessment.data) (w : World) :
  let saved := save_assessment a w in
  assessment_links (snd saved) = assessment_links w /\
  ((fst saved = Return None /\
    assessments (snd saved) = assessments w /\
    exists msg, st_errors (snd saved)
                = ("Error saving assessment: " ++ msg)%string :: st_errors w) \/
   (exists r d,
      fst saved = Return (Some r) /\
      assessments (snd saved) = (assessments w ++ [Stored r d])%list /\
      st_errors (snd saved) = st_errors w)).
Proof.
  cbv zeta. split; [apply save_assessment_frame|].
  destruct (save_assessment_cases a w)
    as [[msg [H1 [H2 H3]]] | [p [v [z [d [_ [_ [_ [_ [_ [_ [H1 [H2 H3]]]]]]]]]]]]].
  - left. split; [exact H1|]. split; [exact H2|]. exists msg. exact H3.
  - right. exists (oid_source w (oid_drawn w)), d. auto.
Qed.


Lemma save_succeeds_when (a : Assessment.data) (w : World) :
  outage w = None /\
  (exists p v z,
     Assessment.patient a = Some p /\ Assessment.age p = Some v /\
     int v = Return z /\ Assessment.bson_int z = true /\
     Assessment.one_of ["Male"; "Female"; "Other"] (Assessment.gender p) = true /\
     Assessment.one_of ["Yes"; "No"] (Assessment.medication p) = true) /\
  questionnaires_valid a /\
  ~ In (uuid_source w (uuid_drawn w)) (assessment_ids (assessments w)) ->
  exists r, fst (save_assessment a w) = Return (Some r).
Proof.
  intros [Hup [[p [v [z [Hp [Hv [Hz [Hage [Hg Hm]]]]]]]] [Hq Hfresh]]].
  destruct (save_assessment_cases a w)
    as [[msg [H1 _]] | [p' [v' [z' [d [_ [_ [_ [_ [_ [_ [H1 _]]]]]]]]]]]];
    [|eexists; exact H1].
  exfalso. revert H1.
  cbv [save_assessment try_except bind uuid4 datetime_now
       assessments_insert_one object_id server get put ret raise lift
       st_error with_assessments snd fst clock outage assessment_links
       assessments uuid_source uuid_drawn oid_source oid_drawn st_errors].
  destruct w as [c us ud os od o ls ds errs]. cbn in Hup, Hfresh. subst o.
  cbn [Assessment.patient set_assessment_id set_created_at].
  rewrite Hp, Hv, Hz.
  assert (Hd : Assessment.schema
                 (set_age (set_assessment_id (set_created_at a c) (us ud)) p z)
               = Some (Assessment.Doc (us ud) c (Assessment.with_age p z)
                         (Assessment.audio_files a)
                         (Assessment.phq9_assessment a)
                         (Assessment.gad7_assessment a)
                         (Assessment.doctor_id a))).
  { apply schema_of_candidate. auto. }
  rewrite Hd. cbn [Assessment.d_assessment_id].
  assert (Hdup : existsb (fun s => Assessment.d_assessment_id (fields s)
                                   =? us ud)%string ds = false).
  { destruct (existsb _ ds) eqn:He; [|reflexivity].
    exfalso. apply Hfresh. apply existsb_exists in He.
    destruct He as [s [Hs Hid]]. apply String.eqb_eq in Hid.
    unfold assessment_ids. apply in_map_iff. exists s. auto. }
  rewrite Hdup. discriminate.
Qed.


Lemma save_assessment_outage (a : Assessment.data) (w : World) :
  outage (snd (save_assessment a w)) = outage w.
Proof.
  cbv [save_assessment try_except bind uuid4 datetime_now
       assessments_insert_one object_id server get put ret raise lift
       st_error with_assessments snd fst clock outage assessment_links
       assessments].
  destruct w as [c us ud os od o ls ds errs].
  destruct (Assessment.patient _) as [p|]; [destruct (Assessment.age p) as [v|];
    [destruct (int v)|]|];
    destruct o;
    repeat match goal with
           | |- context [Assessment.schema ?d] => destruct (Assessment.schema d)
           | |- context [existsb ?f ?l] => destruct (existsb f l)
           end;
    reflexivity.
Qed.

Lemma get_assessment_by_id_eq (assessment_id : string) (w : World) :
  get_assessment_by_id assessment_id w =
  match outage w with
  | Some msg => (Raise (PyMongoError msg), w)
  | None =>
      (Return (find (fun s => (Assessment.d_assessment_id (fields s)
                               =? assessment_id)%string) (assessments w)), w)
  end.
Proof.
  cbv [get_assessment_by_id assessments_find_one bind server get ret].
  destruct (outage w); reflexivity.
Qed.

(** X8. Save, then look up.  When [save_assessment] succeeds, a lookup
    with [get_assessment_by_id] of the uuid it drew finds the record
    just stored: under the returned [_id], created at the clock reading,
    with the caller's patient information, questionnaires, audio
    references and doctor, and the age as the integer [int] made of
    it. *)
Theorem saved_record_found_by_assessment_id (a : Assessment.data) (w : World)
    (r : string) :
  fst (save_assessment a w) = Return (Some r) ->
  exists p v z,
    Assessment.patient a = Some p /\ Assessment.age p = Some v /\
    int v = Return z /\
    fst (get_assessment_by_id (uuid_source w (uuid_drawn w))
           (snd (save_assessment a w)))
    = Return (Some (Stored r
        (Assessment.Doc (uuid_source w (uuid_drawn w)) (clock w)
           (Assessment.with_age p z) (Assessment.audio_files a)
           (Assessment.phq9_assessment a) (Assessment.gad7_assessment a)
           (Assessment.doctor_id a)))).
Proof.
  intros Hr.
  destruct (save_assessment_cases a w)
    as [[msg [H1 _]] | [p [v [z [d [Hup [Hp [Hv [Hz [Hd [Hdup [H1 [H2 _]]]]]]]]]]]]];
    [congruence|].
  rewrite H1 in Hr. injection Hr as <-.
  apply schema_of_candidate in Hd. destruct Hd as [_ ->]. cbn in Hdup.
  exists p, v, z. repeat split; try assumption.
  rewrite get_assessment_by_id_eq, save_assessment_outage, Hup, H2.
  cbn [fst]. f_equal. apply find_last.
  - intros y Hy. exact (existsb_none _ _ Hdup y Hy).
  - cbn. apply String.eqb_refl.
Qed.

(** The record a successful save appends. *)
Lemma saved_record_shape (a : Assessment.data) (w : World) (r : string) :
  fst (save_assessment a w) = Return (Some r) ->
  exists d,
    assessments (snd (save_assessment a w)) = (assessments w ++ [Stored r d])%list /\
    exists p v z,
      Assessment.patient a = Some p /\ Assessment.age p = Some v /\
      int v = Return z /\
      d = Assessment.Doc (uuid_source w (uuid_drawn w)) (clock w)
            (Assessment.with_age p z) (Assessment.audio_files a)
            (Assessment.phq9_assessment a) (Assessment.gad7_assessment a)
            (Assessment.doctor_id a).
Proof.
  intros Hr.
  destruct (save_assessment_cases a w)
    as [[msg [H1 _]] | [p [v [z [d [Hup [Hp [Hv [Hz [Hd [Hdup [H1 [H2 _]]]]]]]]]]]]];
    [congruence|].
  rewrite H1 in Hr. injection Hr as <-.
  apply schema_of_candidate in Hd. destruct Hd as [_ ->].
  eexists. split; [exact H2|]. exists p, v, z. auto.
Qed.

Lemma saved_record_found_by_assessment_id_witness :
  fst (get_assessment_by_id (Samples.uuid_nth 0)
         (Samples.after_saving "P65f1-0001"))
  = Return (Some (Samples.saved_record "P65f1-0001")).
Proof.
  destruct (saved_record_found_by_assessment_id (Samples.a_record "P65f1-0001")
              Samples.fresh (Samples.oid_nth 0) eq_refl)
    as [p [v [z [Hp [Hv [Hz Hfound]]]]]].
  injection Hp as <-. injection Hv as <-. injection Hz as <-.
  exact Hfound.
Defined.

(** *** Along a history *)

Lemma step_assessments (w : World) (e : event) :
  assessments (step w e) = assessments w \/
  exists s,
    assessments (step w e) = (assessments w ++ [s])%list /\
    ~ In (Assessment.d_assessment_id (fields s))
         (assessment_ids (assessments w)).
Proof.
  destruct e as [ms|msg| |d n pe pn|i|i|a|i|d]; cbn [step];
    try (left; reflexivity).
  - left. rewrite create_link_eq. cbv zeta.
    destruct (outage w); [reflexivity|]. destruct (existsb _ _); reflexivity.
  - left. rewrite validate_link_eq. destruct (outage w); reflexivity.
  - left. rewrite mark_link_used_eq. destruct (outage w); reflexivity.
  - destruct (save_assessment_cases a w)
      as [[msg [_ [H2 _]]] | [p [v [z [s [_ [_ [_ [_ [_ [Hdup [_ [H2 _]]]]]]]]]]]]].
    + left. exact H2.
    + right. eexists. split; [exact H2|]. cbn [fields].
      intros Hin. unfold assessment_ids in Hin. apply in_map_iff in Hin.
      destruct Hin as [y [Hid Hy]].
      pose proof (existsb_none _ _ Hdup y Hy) as Hne. cbv beta in Hne.
      rewrite Hid, String.eqb_refl in Hne. discriminate.
  - left. rewrite get_assessment_by_id_frame. reflexivity.
  - left. rewrite generate_unique_patient_id_frame. reflexivity.
Qed.

(** X9. Saved records are never changed or removed: after any history
    of events the stored assessments are the earlier ones, in the same
    order and unaltered, followed by those saved since. *)
Theorem records_are_append_only (history : list event) (w : World) :
  exists added,
    assessments (run history w) = (assessments w ++ added)%list.
Proof.
  revert w. induction history as [|e history IH]; intros w.
  - exists []. cbn. symmetry. apply app_nil_r.
  - cbn [run fold_left]. fold (run history (step w e)).
    destruct (IH (step w e)) as [added Hadded]. rewrite Hadded.
    destruct (step_assessments w e) as [Hsame | [s [Hgrow _]]].
    + exists added. rewrite Hsame. reflexivity.
    + exists (s :: added). rewrite Hgrow, <- app_assoc. reflexivity.
Qed.

(** X10. The [assessment_id]s stay pairwise distinct: a store whose
    records have distinct identifiers still has after any history of
    events, whatever uuids are drawn, because a repeated one is refused
    by the unique index. *)
Theorem assessment_ids_stay_unique (history : list event) (w : World) :
  unique_assessment_ids w -> unique_assessment_ids (run history w).
Proof.
  revert w. induction history as [|e history IH]; intros w Hu; [exact Hu|].
  cbn [run fold_left]. fold (run history (step w e)). apply IH.
  unfold unique_assessment_ids in *.
  destruct (step_assessments w e) as [Hsame | [s [Hgrow Hfresh]]].
  - rewrite Hsame. exact Hu.
  - rewrite Hgrow. unfold assessment_ids. rewrite map_app. apply NoDup_app.
    + exact Hu.
    + cbn. constructor; [intros []|constructor].
    + intros x Hx [Hy|[]]. cbn in Hy. subst x. exact (Hfresh Hx).
Qed.

Lemma assessment_ids_stay_unique_witness :
  unique_assessment_ids
    (run [SaveAssessment (Samples.a_record "P65f1-0001");
          SaveAssessment (Samples.a_record "P65f1-0002")] Samples.fresh).
Proof.
  apply (assessment_ids_stay_unique _ Samples.fresh). constructor.
Defined.

Lemma later_version_refl (l : stored Link.t) : later_version l l.
Proof. unfold later_version. tauto. Qed.

Lemma later_version_trans (a b c : stored Link.t) :
  later_version a b -> later_version b c -> later_version a c.
Proof.
  unfold later_version. intros H1 H2.
  destruct H1 as [A1 [A2 [A3 [A4 [A5 [A6 [A7 A8]]]]]]].
  destruct H2 as [B1 [B2 [B3 [B4 [B5 [B6 [B7 B8]]]]]]].
  repeat split; try congruence. auto.
Qed.

Lemma later_version_consume (l : stored Link.t) : later_version l (consume l).
Proof. unfold later_version, consume. cbn. tauto. Qed.

(** X11. A stored link is never removed and only ever changes by
    becoming used: after any history of events the collection still
    holds that link, with the same [_id], identifier, doctor, creation
    and expiry times and patient details, and still used if it was
    used. *)
Theorem links_only_become_used (history : list event) (w : World)
    (l : stored Link.t) :
  In l (assessment_links w) ->
  exists l', In l' (assessment_links (run history w)) /\ later_version l l'.
Proof.
  revert w l. induction history as [|e history IH]; intros w l Hin.
  - exists l. split; [exact Hin | apply later_version_refl].
  - cbn [run fold_left]. fold (run history (step w e)).
    destruct (step_change w e) as [Hch _].
    assert (Hnext : exists l1, In l1 (assessment_links (step w e)) /\
                               later_version l l1).
    { destruct Hch as [|i|s _].
      - exists l. split; [exact Hin | apply later_version_refl].
      - destruct (in_update_first (same_id i) _ l Hin) as [H|H].
        + exists l. split; [exact H | apply later_version_refl].
        + exists (consume l). split; [exact H | apply later_version_consume].
      - exists l. split; [apply in_or_app; left; exact Hin
                         | apply later_version_refl]. }
    destruct Hnext as [l1 [Hin1 Hv1]].
    destruct (IH (step w e) l1 Hin1) as [l' [Hin' Hv']].
    exists l'. split; [exact Hin' | exact (later_version_trans _ _ _ Hv1 Hv')].
Qed.

Lemma links_only_become_used_witness :
  exists l',
    In l' (assessment_links
             (run [MarkLinkUsed "link-1"; Tick 9000] Samples.one_link)) /\
    later_version Samples.a_link l'.
Proof.
  apply (links_only_become_used _ Samples.one_link Samples.a_link).
  left. reflexivity.
Defined.

End StoreFacts.

(** ** More on the link lifecycle *)

Module LinkMoreFacts.
Import Py Run Env Collection Core Session LinkState StoreState LinkFacts.

Lemma consume_twice (s : stored Link.t) : consume (consume s) = consume s.
Proof. reflexivity. Qed.

Lemma same_id_consume (link_id : string) (s : stored Link.t) :
  same_id link_id (consume s) = same_id link_id s.
Proof. reflexivity. Qed.

Lemma update_first_twice (link_id : string) (ls : list (stored Link.t)) :
  update_first (same_id link_id) consume
    (update_first (same_id link_id) consume ls)
  = update_first (same_id link_id) consume ls.
Proof.
  induction ls as [|s ls IH]; [reflexivity|].
  cbn [update_first]. destruct (same_id link_id s) eqn:Hs.
  - cbn [update_first]. rewrite same_id_consume, Hs. reflexivity.
  - cbn [update_first]. rewrite Hs, IH. reflexivity.
Qed.

(** X12. [mark_link_used] looks at neither the [used] flag nor the
    expiry: on a reachable store it marks the link stored under the
    identifier whatever its state, and a second call returns [True]
    again and leaves the store exactly as the first call left it. *)
Theorem mark_link_used_unconditional_and_repeatable (w : World)
    (link_id : string) :
  outage w = None ->
  let once := mark_link_used link_id w in
  fst once = Return true /\
  (forall l, stored_as link_id w l ->
             exists l', stored_as link_id (snd once) l' /\
                        Link.used (fields l') = true) /\
  mark_link_used link_id (snd once) = (Return true, snd once).
Proof.
  intros Hup. cbv zeta. rewrite mark_link_used_eq, Hup. cbn [fst snd].
  split; [reflexivity|]. split.
  - intros l [Hin Hid].
    destruct (consumed_is_used link_id _ l Hin Hid) as [l' [H1 [H2 H3]]].
    exists l'. split; [split; assumption | exact H3].
  - rewrite mark_link_used_eq. cbn [outage with_links]. rewrite Hup.
    cbn [assessment_links with_links]. rewrite update_first_twice.
    destruct w; reflexivity.
Qed.

Lemma mark_link_used_unconditional_and_repeatable_witness :
  mark_link_used "link-1" (snd (mark_link_used "link-1" Samples.one_link))
  = (Return true, snd (mark_link_used "link-1" Samples.one_link)).
Proof.
  apply (mark_link_used_unconditional_and_repeatable Samples.one_link "link-1"
           eq_refl).
Defined.

(** X13. A link created with no days of validity, or a negative number
    of them, is expired the moment it is stored: validating its
    identifier returns not-found right away and after every later
    history of events. *)
Theorem link_without_validity_never_valid (w : World) (doctor_id : string)
    (expiry_days : Z) (patient_email patient_name : option string)
    (link_id : string) :
  expiry_days <= 0 ->
  unique_link_ids w ->
  fst (create_link doctor_id expiry_days patient_email patient_name w)
  = Return (Some link_id) ->
  forall history,
    fst (validate_link link_id
           (run history
              (snd (create_link doctor_id expiry_days patient_email
                                patient_name w))))
    = not_found.
Proof.
  intros Hdays Hu Hcreated history.
  rewrite create_link_eq in *. cbv zeta in *.
  destruct (outage w) as [msg|] eqn:Hup; [discriminate|].
  destruct (existsb _ _) eqn:Hdup; [discriminate|].
  cbn [fst snd] in *. injection Hcreated as Hid.
  apply spent_stays_invalid.
  - unfold unique_link_ids. cbn [assessment_links with_links].
    apply (change_unique (assessment_links w)); [|exact Hu].
    apply Added. cbn. apply existsb_same_id. exact Hdup.
  - exists (new_link doctor_id expiry_days patient_email patient_name w).
    cbn [assessment_links with_links]. split; [apply in_or_app; right; left;
      reflexivity|]. split; [exact Hid|]. right. cbn.
    unfold timedelta_days. lia.
Qed.

Lemma link_without_validity_never_valid_witness :
  fst (validate_link (Samples.uuid_nth 0)
         (run [Tick 1]
              (snd (create_link Samples.doctor 0 None None Samples.fresh))))
  = not_found.
Proof.
  apply (link_without_validity_never_valid Samples.fresh Samples.doctor 0 None
           None (Samples.uuid_nth 0) ltac:(lia)).
  - constructor.
  - reflexivity.
Defined.


End LinkMoreFacts.

(** ** Properties of the assessment form *)

Module FormFacts.
Import Py Run Env Collection Core Session LinkState StoreState Form LinkFacts.

Lemma missing_fields_eq (p : personal) :
  missing_fields p =
  ((if (name p =? "")%string then ["name"] else [])
   ++ (if age p <=? 0 then ["age"] else [])
   ++ (if (gender p =? "")%string then ["gender"] else [])
   ++ (if (language p =? "")%string then ["language"] else [])
   ++ (if (education p =? "")%string then ["education"] else [])
   ++ (if (email p =? "")%string then ["email"] else [])
   ++ (if (clinic p =? "")%string then ["clinic"] else [])
   ++ (if (medication p =? "")%string then ["medication"] else []))%list.
Proof.
  unfold missing_fields, required_fields.
  destruct p as [n a g l e m c d]. cbn [name age gender language education
                                         email clinic medication].
  assert (Hage : (if 0 <? a then Some (PyInt a) else None)
                 = (if a <=? 0 then None else Some (PyInt a))).
  { destruct (Z.ltb_spec 0 a), (Z.leb_spec a 0); try reflexivity; lia. }
  rewrite Hage.
  destruct (Z.leb_spec a 0) as [Ha|Ha];
    [|destruct a as [|a'|a']; try lia];
    destruct n, g, l, e, m, c, d; reflexivity.
Qed.

Lemma flag_nil (c : bool) (x : string) :
  (if c then [x] else []) = [] <-> c = false.
Proof. destruct c; split; intros H; try reflexivity; discriminate H. Qed.

Lemma flag_in (c : bool) (x f : string) :
  In f (if c then [x] else []) <-> f = x /\ c = true.
Proof.
  destruct c; cbn; split.
  - intros [<-|[]]. auto.
  - intros [-> _]. auto.
  - intros [].
  - intros [_ H]. discriminate H.
Qed.

Lemma app_nil_iff {A : Type} (l l' : list A) :
  (l ++ l')%list = [] <-> l = [] /\ l' = [].
Proof.
  split; [apply app_eq_nil | intros [-> ->]; reflexivity].
Qed.

Lemma missing_fields_none (p : personal) :
  missing_fields p = [] <->
  name p <> "" /\ 0 < age p /\ gender p <> "" /\ language p <> "" /\
  education p <> "" /\ email p <> "" /\ clinic p <> "" /\
  medication p <> "".
Proof.
  rewrite missing_fields_eq.
  rewrite !app_nil_iff, !flag_nil, !String.eqb_neq, Z.leb_gt. tauto.
Qed.

(** X15. The check behind "Next: Voice Assessment".  The form is let
    through exactly when the name, gender, language, education, e-mail,
    clinic and medication entries are non-empty and the age is above
    zero; otherwise the fields reported are exactly the empty ones (and
    the age when it is zero or less).  Only emptiness is tested: a blank
    made of spaces counts as filled in. *)
Theorem missing_fields_spec (p : personal) :
  (missing_fields p = [] <->
   name p <> "" /\ 0 < age p /\ gender p <> "" /\ language p <> "" /\
   education p <> "" /\ email p <> "" /\ clinic p <> "" /\
   medication p <> "") /\
  (forall f, In f (missing_fields p) <->
     (f = "name" /\ name p = "") \/ (f = "age" /\ age p <= 0) \/
     (f = "gender" /\ gender p = "") \/ (f = "language" /\ language p = "") \/
     (f = "education" /\ education p = "") \/ (f = "email" /\ email p = "") \/
     (f = "clinic" /\ clinic p = "") \/
     (f = "medication" /\ medication p = "")).
Proof.
  split; [apply missing_fields_none|].
  intros f. rewrite missing_fields_eq.
  rewrite !in_app_iff, !flag_in, !String.eqb_eq, Z.leb_le. tauto.
Qed.

Example blank_name_is_accepted :
  missing_fields (Personal "   " 41 "Female" "English" "Graduation" "a@b.com"
                           "Clinic" "No") = [] /\
  missing_fields (Personal "" 0 "Female" "English" "Graduation" "" "Clinic" "No")
  = ["name"; "age"; "email"].
Proof. split; reflexivity. Qed.

(** *** From choices to answers *)

Lemma list_index_found (c : string) :
  In c options ->
  exists i, list_index c options = Return i /\ 0 <= i <= 3 /\
            nth (Z.to_nat i) options "" = c.
Proof.
  intros [<-|[<-|[<-|[<-|[]]]]]; vm_compute; eexists;
    (split; [reflexivity|]); split; try reflexivity; split; discriminate.
Qed.

Lemma list_index_absent (c : string) (xs : list string) :
  ~ In c xs -> list_index c xs = Raise (ValueError "x is not in list").
Proof.
  induction xs as [|y xs IH]; intros Hno; [reflexivity|].
  cbn. destruct (String.eqb_spec y c) as [->|Hne].
  - exfalso. apply Hno. left. reflexivity.
  - rewrite IH; [reflexivity|]. intros H. apply Hno. right. exact H.
Qed.

Lemma answers_of_choices (chosen : list string) :
  Forall (fun c => In c options) chosen ->
  exists answers,
    answers_of chosen = Return answers /\
    List.length answers = List.length chosen /\
    Forall (fun a => 0 <= a <= 3) answers /\
    map (fun a => nth (Z.to_nat a) options "") answers = chosen.
Proof.
  induction 1 as [|c chosen Hc _ IH].
  - exists []. repeat split. constructor.
  - destruct IH as [answers [Hrun [Hlen [Hrange Hback]]]].
    destruct (list_index_found c Hc) as [i [Hi [Hbound Hnth]]].
    exists (i :: answers). cbn [answers_of]. rewrite Hi, Hrun.
    split; [reflexivity|]. split; [cbn; congruence|].
    split; [constructor; assumption|]. cbn [map]. congruence.
Qed.

(** X16. Each chosen label becomes its position in the list of the four
    choices.  When every choice is one of the four labels the loop
    returns as many answers as there were choices, each from 0 to 3, and
    the labels can be read back from them; a choice that is none of the
    labels makes the loop raise [ValueError]. *)
Theorem answers_from_choices (chosen : list string) :
  (Forall (fun c => In c options) chosen ->
   exists answers,
     answers_of chosen = Return answers /\
     Scoring.in_contract (List.length chosen) answers /\
     map (fun a => nth (Z.to_nat a) options "") answers = chosen) /\
  ((exists c, In c chosen /\ ~ In c options) ->
   answers_of chosen = Raise (ValueError "x is not in list")).
Proof.
  split.
  - intros Hall. destruct (answers_of_choices chosen Hall)
      as [answers [Hrun [Hlen [Hrange Hback]]]].
    exists answers. split; [exact Hrun|]. split; [split; assumption | exact Hback].
  - induction chosen as [|c chosen IH]; intros [bad [Hin Hbad]]; [destruct Hin|].
    cbn [answers_of].
    destruct (in_dec string_dec c options) as [Hc|Hc].
    + destruct (list_index_found c Hc) as [i [Hi _]]. rewrite Hi.
      destruct Hin as [<-|Hin]; [contradiction|].
      rewrite IH; [reflexivity|]. exists bad. auto.
    + rewrite (list_index_absent c options Hc). reflexivity.
Qed.

Lemma answers_from_choices_witness :
  exists answers,
    answers_of ["Not at all"; "Nearly every day"; "Several days"]
    = Return answers /\
    Scoring.in_contract 3 answers.
Proof.
  destruct (proj1 (answers_from_choices
                     ["Not at all"; "Nearly every day"; "Several days"]))
    as [answers [Hrun [Hc _]]].
  - repeat constructor; cbn; tauto.
  - exists answers. split; [exact Hrun | exact Hc].
Defined.

(** *** Submitting *)

Lemma upload_all_cases (upload : string -> option string)
    (recordings : list (string * string)) (audio_files : list (string * string))
    (w : World) :
  (exists files, upload_all upload recordings audio_files w
                 = (Return (Some files), w)) \/
  (exists t, In t (map fst recordings) /\
             Reads.truthy (upload t) = false /\
             upload_all upload recordings audio_files w
             = (Return None,
                logged ("Failed to upload " ++ t ++ " audio file") w)).
Proof.
  revert audio_files. induction recordings as [|[t data] rest IH];
    intros audio_files; cbn [upload_all].
  - left. eexists. reflexivity.
  - assert (Hrest : forall files,
              (exists files', upload_all upload rest files w
                              = (Return (Some files'), w)) \/
              (exists t0, In t0 (map fst ((t, data) :: rest)) /\
                          Reads.truthy (upload t0) = false /\
                          upload_all upload rest files w
                          = (Return None,
                             logged ("Failed to upload " ++ t0 ++ " audio file")
                                    w))).
    { intros files. destruct (IH files) as [H|[t0 [H1 [H2 H3]]]];
        [left; exact H | right; exists t0; split; [right; exact H1 | auto]]. }
    destruct data as [|c data]; [apply Hrest|].
    destruct (Reads.truthy (upload t)) eqn:Ht; [apply Hrest|].
    right. exists t. split; [left; reflexivity|]. split; [exact Ht|reflexivity].
Qed.

Lemma upload_all_succeeds (upload : string -> option string)
    (recordings : list (string * string)) (audio_files : list (string * string))
    (w : World) :
  (forall t, In t (map fst recordings) -> Reads.truthy (upload t) = true) ->
  exists files, upload_all upload recordings audio_files w
                = (Return (Some files), w).
Proof.
  intros Hall. destruct (upload_all_cases upload recordings audio_files w)
    as [H|[t [Hin [Hfalse _]]]]; [exact H|].
  rewrite (Hall t Hin) in Hfalse. discriminate.
Qed.

Lemma bind_return {A B : Type} (m : M A) (k : A -> M B) (w w' : World) (a : A) :
  m w = (Return a, w') -> bind m k w = k a w'.
Proof. unfold bind. intros ->. reflexivity. Qed.

Lemma bind_raise {A B : Type} (m : M A) (k : A -> M B) (w w' : World) (e : exn) :
  m w = (Raise e, w') -> bind m k w = (Raise e, w').
Proof. unfold bind. intros ->. reflexivity. Qed.

(** The identifier under which the record is filed. *)
Lemma patient_id_step (s : session) (owner : string) (w : World) :
  exists r,
    match patient_id s with
    | Some p => ret p
    | None => generate_unique_patient_id owner
    end w = (r, w).
Proof.
  destruct (patient_id s) as [p|].
  - eexists. reflexivity.
  - exists (fst (generate_unique_patient_id owner w)).
    rewrite <- (generate_unique_patient_id_frame owner w) at 3.
    destruct (generate_unique_patient_id owner w). reflexivity.
Qed.

(** Every way [submit] can end. *)
Lemma submit_cases (s : session) (gad7_answers : list Z)
    (link_data : option (stored Link.t)) (doctor_id : option string)
    (user_id : string) (upload : string -> option string) (w : World) :
  let run := submit s gad7_answers link_data doctor_id user_id upload w in
  (exists e, run = (Raise e, w)) \/
  (exists t, Reads.truthy (upload t) = false /\ In t (map fst (audio_recordings s)) /\
     run = (Return UploadFailed,
            logged ("Failed to upload " ++ t ++ " audio file") w)) \/
  (exists a, let saved := save_assessment a w in
     Reads.truthy match fst saved with Return r => r | Raise _ => None end = false /\
     run = (Return SaveFailed, logged "Failed to save assessment" (snd saved))) \/
  (exists pid phq9_answers files r,
     let a := assemble (form s) pid files phq9_answers gad7_answers
                match doctor_id with
                | Some d => if Reads.truthy doctor_id then d else user_id
                | None => user_id
                end in
     let saved := save_assessment a w in
     read_answers (phq9 s) (seq 0 9) = Return phq9_answers /\
     fst saved = Return (Some r) /\ r <> "" /\
     fst run = Return
       (Submitted (fst (fst (Scoring.calculate_phq9_score phq9_answers)))
                  (snd (fst (Scoring.calculate_phq9_score phq9_answers)))
                  (snd (Scoring.calculate_phq9_score phq9_answers))
                  (fst (Scoring.calculate_gad7_score gad7_answers))
                  (snd (Scoring.calculate_gad7_score gad7_answers))) /\
     snd run = match link_data with
               | Some link =>
                   snd (mark_link_used (Link.link_id (fields link)) (snd saved))
               | None => snd saved
               end).
Proof.
  cbv zeta. unfold submit.
  set (owner := match doctor_id with
                | Some d => if Reads.truthy doctor_id then d else user_id
                | None => user_id
                end).
  destruct (patient_id_step s owner w) as [r1 Hstep].
  destruct r1 as [pid|e];
    [|left; exists e; apply (bind_raise _ _ _ _ _ Hstep)].
  rewrite (bind_return _ _ _ _ _ Hstep).
  destruct (read_answers (phq9 s) (seq 0 9)) as [phq9_answers|e] eqn:Hread;
    [|left; exists e; apply (bind_raise _ _ w w); reflexivity].
  rewrite (bind_return _ _ w w phq9_answers) by reflexivity.
  destruct (upload_all_cases upload (audio_recordings s) [] w)
    as [[files Hup]|[t [Hin [Hfalse Hup]]]];
    rewrite (bind_return _ _ _ _ _ Hup);
    [|right; left; exists t; split; [exact Hfalse|]; split; [exact Hin|];
      reflexivity].
  set (a := assemble (form s) pid files phq9_answers gad7_answers owner).
  destruct (save_assessment a w) as [res w2] eqn:Hsave.
  assert (Hres : (res = Return None) \/
                 (res = Return (Some (oid_source w (oid_drawn w))) /\
                  outage w2 = None)).
  { pose proof (StoreFacts.save_assessment_outage a w) as Hout.
    destruct (StoreFacts.save_assessment_cases a w)
      as [[msg [H1 _]] | [p [v [z [d [Hno [_ [_ [_ [_ [_ [H1 _]]]]]]]]]]]];
      rewrite Hsave in *; cbn [fst snd] in *;
      [left; exact H1 | right; split; [exact H1 | congruence]]. }
  destruct Hres as [->|[-> Hout2]].
  - right. right. left. exists a. cbv zeta. rewrite Hsave. cbn [fst snd].
    split; [reflexivity|].
    rewrite (bind_return _ _ _ _ _ Hsave). reflexivity.
  - destruct (oid_source w (oid_drawn w)) as [|c r] eqn:Hoid.
    + right. right. left. exists a. cbv zeta. rewrite Hsave. cbn [fst snd].
      split; [reflexivity|].
      rewrite (bind_return _ _ _ _ _ Hsave). reflexivity.
    + right. right. right. exists pid, phq9_answers, files, (String c r).
      cbv zeta. fold owner. fold a. rewrite Hsave. cbn [fst snd].
      split; [reflexivity|]. split; [reflexivity|]. split; [discriminate|].
      rewrite (bind_return _ _ _ _ _ Hsave). cbn [Reads.truthy].
      destruct link_data as [link|].
      * assert (Hmark : mark_link_used (Link.link_id (fields link)) w2
                        = (Return true,
                           snd (mark_link_used (Link.link_id (fields link)) w2))).
        { rewrite mark_link_used_eq, Hout2. reflexivity. }
        rewrite (bind_return _ _ _ _ tt
                   (bind_return _ (fun _ => ret tt) _ _ _ Hmark)).
        destruct (Scoring.calculate_phq9_score phq9_answers) as [[? ?] ?].
        destruct (Scoring.calculate_gad7_score gad7_answers) as [? ?].
        split; reflexivity.
      * rewrite (bind_return _ _ w2 w2 tt) by reflexivity.
        destruct (Scoring.calculate_phq9_score phq9_answers) as [[? ?] ?].
        destruct (Scoring.calculate_gad7_score gad7_answers) as [? ?].
        split; reflexivity.
Qed.

Lemma save_success_outage (a : Assessment.data) (w : World) (r : string) :
  fst (save_assessment a w) = Return (Some r) ->
  outage w = None /\ outage (snd (save_assessment a w)) = None /\
  r = oid_source w (oid_drawn w) /\
  assessment_links (snd (save_assessment a w)) = assessment_links w /\
  clock (snd (save_assessment a w)) = clock w /\
  exists d, assessments (snd (save_assessment a w))
            = (assessments w ++ [Stored r d])%list.
Proof.
  intros Hr.
  pose proof (StoreFacts.save_assessment_outage a w) as Hout.
  destruct (save_assessment_frame a w) as [Hlinks Hclock].
  destruct (StoreFacts.save_assessment_cases a w)
    as [[msg [H1 _]] | [p [v [z [d [Hup [_ [_ [_ [_ [_ [H1 [H2 _]]]]]]]]]]]]];
    [congruence|].
  rewrite H1 in Hr. injection Hr as <-.
  split; [exact Hup|]. split; [congruence|]. split; [reflexivity|].
  split; [exact Hlinks|]. split; [exact Hclock|]. exists d. exact H2.
Qed.

(** X17. A submission is all or nothing.  Provided the store's next
    [_id] is not the empty string, [submit] either reports success,
    having appended exactly one assessment record, or it ends in an
    exception, a failed upload or a failed save, and then the stored
    assessments and the stored links are exactly as before: nothing is
    saved and no link is consumed. *)
Theorem submit_all_or_nothing (s : session) (gad7_answers : list Z)
    (link_data : option (stored Link.t)) (doctor_id : option string)
    (user_id : string) (upload : string -> option string) (w : World) :
  oid_source w (oid_drawn w) <> "" ->
  let run := submit s gad7_answers link_data doctor_id user_id upload w in
  (exists s1 v1 a1 s2 v2 r d,
     fst run = Return (Submitted s1 v1 a1 s2 v2) /\
     assessments (snd run) = (assessments w ++ [Stored r d])%list) \/
  ((forall s1 v1 a1 s2 v2, fst run <> Return (Submitted s1 v1 a1 s2 v2)) /\
   assessments (snd run) = assessments w /\
   assessment_links (snd run) = assessment_links w).
Proof.
  intros Hoid. cbv zeta.
  destruct (submit_cases s gad7_answers link_data doctor_id user_id upload w)
    as [[e Hrun] | [[t [_ [_ Hrun]]] | [[a [Hfalse Hrun]]
       | [pid [answers [files [r [_ [Hsaved [_ [Hfst Hsnd]]]]]]]]]]].
  - right. rewrite Hrun. split; [discriminate|]. split; reflexivity.
  - right. rewrite Hrun. split; [discriminate|]. split; reflexivity.
  - right. rewrite Hrun. cbn [fst snd]. split; [discriminate|].
    cbv zeta in Hfalse.
    destruct (save_assessment_frame a w) as [Hlinks _].
    destruct (StoreFacts.save_assessment_cases a w)
      as [[msg [_ [H2 _]]] | [p [v [z [d [_ [_ [_ [_ [_ [_ [H1 _]]]]]]]]]]]].
    + split; [exact H2 | exact Hlinks].
    + exfalso. rewrite H1 in Hfalse.
      destruct (oid_source w (oid_drawn w)); [contradiction | discriminate].
  - left. cbv zeta in Hsaved, Hsnd.
    destruct (save_success_outage _ _ _ Hsaved)
      as [_ [Hout2 [_ [_ [_ [d Hgrow]]]]]].
    do 5 eexists. exists r, d. split; [exact Hfst|]. rewrite Hsnd.
    destruct link_data as [link|]; [|exact Hgrow].
    rewrite mark_link_used_eq, Hout2. exact Hgrow.
Qed.

Lemma submit_all_or_nothing_witness :
  let run := submit (Session (Personal "Ann" 41 "Female" "English" "Graduation"
                                       "ann@example.org" "Clinic" "No")
                             (Some "P65f1-0001") [0; 0; 0; 0; 0; 0; 0; 0; 0]
                             [("animals", "RIFF")])
                    [0; 0; 0; 0; 0; 0; 0] None (Some Samples.doctor) "u"
                    (fun _ => None) Samples.fresh in
  fst run = Return UploadFailed /\ assessments (snd run) = [].
Proof.
  cbv zeta.
  destruct (submit_all_or_nothing
              (Session (Personal "Ann" 41 "Female" "English" "Graduation"
                                 "ann@example.org" "Clinic" "No")
                       (Some "P65f1-0001") [0; 0; 0; 0; 0; 0; 0; 0; 0]
                       [("animals", "RIFF")])
              [0; 0; 0; 0; 0; 0; 0] None (Some Samples.doctor) "u"
              (fun _ => None) Samples.fresh ltac:(discriminate))
    as [[s1 [v1 [a1 [s2 [v2 [r [d [Hfst _]]]]]]]] | [_ [Hstore _]]].
  - vm_compute in Hfst. discriminate Hfst.
  - split; [vm_compute; reflexivity | exact Hstore].
Defined.



Lemma read_answers_from (stored : list Z) (k n : nat) :
  (k + n <= List.length stored)%nat ->
  read_answers stored (seq k n) = Return (firstn n (skipn k stored)).
Proof.
  revert k. induction n as [|n IH]; intros k Hlen; [reflexivity|].
  cbn [seq read_answers].
  destruct (nth_error stored k) as [a|] eqn:Hnth.
  - rewrite IH by lia.
    assert (Hskip : skipn k stored = a :: skipn (S k) stored).
    { clear IH Hlen. revert k Hnth. induction stored as [|x stored IHs];
        intros [|k] Hnth; try discriminate.
      - injection Hnth as ->. reflexivity.
      - cbn in Hnth. cbn [skipn]. apply (IHs k Hnth). }
    rewrite Hskip. reflexivity.
  - apply nth_error_None in Hnth. lia.
Qed.

Lemma read_nine (stored : list Z) :
  List.length stored = 9%nat -> read_answers stored (seq 0 9) = Return stored.
Proof.
  intros Hlen. rewrite read_answers_from by (rewrite Hlen; lia).
  cbn [skipn]. rewrite <- Hlen. rewrite firstn_all. reflexivity.
Qed.

Lemma small_answers_fit (answers : list Z) :
  Forall (fun a => 0 <= a <= 3) answers ->
  forallb Assessment.bson_int answers = true.
Proof.
  intros H. apply forallb_forall. intros a Ha.
  rewrite Forall_forall in H. specialize (H a Ha).
  unfold Assessment.bson_int. apply andb_true_iff. rewrite !Z.leb_le. lia.
Qed.

Lemma assemble_parts (p : personal) (pid : string)
    (files : list (string * string)) (a9 a7 : list Z) (owner : string) :
  assemble p pid files a9 a7 owner =
  Assessment.Data None None
    (Some (Assessment.Info (name p) (Some (PyInt (age p))) (gender p)
             (language p) (education p) (email p) (clinic p) pid
             (medication p)))
    files
    (Assessment.Phq9 a9 (fst (fst (Scoring.calculate_phq9_score a9)))
                     (snd (fst (Scoring.calculate_phq9_score a9)))
                     (snd (Scoring.calculate_phq9_score a9)))
    (Assessment.Gad7 a7 (fst (Scoring.calculate_gad7_score a7))
                     (snd (Scoring.calculate_gad7_score a7)))
    (Some owner).
Proof.
  unfold assemble.
  destruct (Scoring.calculate_phq9_score a9) as [[? ?] ?].
  destruct (Scoring.calculate_gad7_score a7) as [? ?]. reflexivity.
Qed.

Lemma one_of_in (options : list string) (x : string) :
  In x options -> Assessment.one_of options x = true.
Proof.
  intros Hin. unfold Assessment.one_of. apply existsb_exists.
  exists x. split; [exact Hin | apply String.eqb_refl].
Qed.

(** X19. A form that passed the checks of the earlier steps is always
    stored.  With the store reachable, the drawn uuid new, a non-empty
    next [_id], all required fields present, an age of at most 120, a
    gender and a medication flag among the offered choices, nine PHQ-9
    and seven GAD-7 answers from 0 to 3, and every upload succeeding,
    [submit] reports success with the two sums as scores, the PHQ-9 sum
    within [0,27] and the GAD-7 sum within [0,21], and appends one
    record carrying those answers and scores, the age, the clock reading
    and the owning doctor. *)
Theorem well_formed_submission_is_stored (s : session) (gad7_answers : list Z)
    (link_data : option (stored Link.t)) (doctor_id : option string)
    (user_id : string) (upload : string -> option string) (w : World) :
  outage w = None ->
  ~ In (uuid_source w (uuid_drawn w)) (assessment_ids (assessments w)) ->
  oid_source w (oid_drawn w) <> "" ->
  missing_fields (form s) = [] ->
  age (form s) <= 120 ->
  In (gender (form s)) ["Male"; "Female"; "Other"] ->
  In (medication (form s)) ["Yes"; "No"] ->
  Scoring.in_contract 9 (phq9 s) ->
  Scoring.in_contract 7 gad7_answers ->
  (forall t, In t (map fst (audio_recordings s)) ->
             Reads.truthy (upload t) = true) ->
  let run := submit s gad7_answers link_data doctor_id user_id upload w in
  exists v1 a1 v2 r d,
    fst run = Return (Submitted (Scoring.total (phq9 s)) v1 a1
                                (Scoring.total gad7_answers) v2) /\
    0 <= Scoring.total (phq9 s) <= 27 /\
    0 <= Scoring.total gad7_answers <= 21 /\
    assessments (snd run) = (assessments w ++ [Stored r d])%list /\
    Assessment.d_phq9 d
    = Assessment.Phq9 (phq9 s) (Scoring.total (phq9 s)) v1 a1 /\
    Assessment.d_gad7 d
    = Assessment.Gad7 gad7_answers (Scoring.total gad7_answers) v2 /\
    Assessment.age (Assessment.d_patient d) = age (form s) /\
    Assessment.d_created_at d = clock w /\
    Assessment.d_doctor_id d
    = Some match doctor_id with
           | Some "" | None => user_id
           | Some given => given
           end.
Proof.
  intros Hup Hfresh Hoid Hmiss Hage Hgender Hmed [Hlen9 Hr9] [Hlen7 Hr7] Hdrive.
  cbv zeta.
  apply missing_fields_none in Hmiss. destruct Hmiss as [_ [Hpos _]].
  set (owner := match doctor_id with
                | Some d => if Reads.truthy doctor_id then d else user_id
                | None => user_id
                end).
  assert (Howner : owner = match doctor_id with
                           | Some "" | None => user_id
                           | Some given => given
                           end).
  { subst owner. destruct doctor_id as [[|c d]|]; reflexivity. }
  pose proof (ScoringFacts.total_bounds _ Hr9) as Hb9. rewrite Hlen9 in Hb9.
  pose proof (ScoringFacts.total_bounds _ Hr7) as Hb7. rewrite Hlen7 in Hb7.
  pose proof (ScoringFacts.phq9_score_is_sum (phq9 s)) as Hs9.
  pose proof (ScoringFacts.gad7_score_is_sum gad7_answers) as Hs7.
  rewrite ScoringFacts.sum_total in Hs9, Hs7.
  (* the patient identifier *)
  assert (Hpid : exists pid,
             match patient_id s with
             | Some p => ret p
             | None => generate_unique_patient_id owner
             end w = (Return pid, w)).
  { destruct (patient_id s) as [p|]; [eexists; reflexivity|].
    eexists. apply (PatientIdFacts.generate_unique_patient_id_eq _ _ Hup). }
  destruct Hpid as [pid Hpid].
  destruct (upload_all_succeeds upload (audio_recordings s) [] w Hdrive)
    as [files Hfiles].
  set (a := assemble (form s) pid files (phq9 s) gad7_answers owner).
  assert (Hsave : exists r, fst (save_assessment a w) = Return (Some r)).
  { apply StoreFacts.save_succeeds_when. split; [exact Hup|].
    subst a. rewrite assemble_parts. cbn [Assessment.patient].
    split; [|split; [|exact Hfresh]].
    - eexists. exists (PyInt (age (form s))), (age (form s)).
      cbn [Assessment.age Assessment.gender Assessment.medication int].
      repeat split.
      + unfold Assessment.bson_int. apply andb_true_iff. rewrite !Z.leb_le. lia.
      + apply one_of_in. exact Hgender.
      + apply one_of_in. exact Hmed.
    - unfold questionnaires_valid.
      cbn [Assessment.phq9_assessment Assessment.gad7_assessment
           Assessment.phq9_answers Assessment.phq9_score
           Assessment.gad7_answers Assessment.gad7_score].
      rewrite Hs9, Hs7.
      repeat split; try assumption; try (apply small_answers_fit; assumption);
        unfold Assessment.bson_int; apply andb_true_iff; rewrite !Z.leb_le; lia. }
  destruct Hsave as [r Hsave].
  destruct (StoreFacts.saved_record_shape a w r Hsave) as [d [Hgrow Hd]].
  destruct (save_success_outage _ _ _ Hsave) as [_ [Hout2 [Hr _]]].
  (* running the handler *)
  assert (Hrun : submit s gad7_answers link_data doctor_id user_id upload w
                 = (Return
                      (Submitted (fst (fst (Scoring.calculate_phq9_score (phq9 s))))
                                 (snd (fst (Scoring.calculate_phq9_score (phq9 s))))
                                 (snd (Scoring.calculate_phq9_score (phq9 s)))
                                 (fst (Scoring.calculate_gad7_score gad7_answers))
                                 (snd (Scoring.calculate_gad7_score gad7_answers))),
                    match link_data with
                    | Some link =>
                        snd (mark_link_used (Link.link_id (fields link))
                               (snd (save_assessment a w)))
                    | None => snd (save_assessment a w)
                    end)).
  { unfold submit. fold owner.
    rewrite (bind_return _ _ _ _ _ Hpid).
    rewrite (bind_return _ _ w w (phq9 s))
      by (unfold lift; rewrite (read_nine _ Hlen9); reflexivity).
    rewrite (bind_return _ _ _ _ _ Hfiles). fold a.
    destruct (save_assessment a w) as [res w2] eqn:Hsaved.
    cbn [fst snd] in *. subst res.
    rewrite (bind_return _ _ _ _ _ Hsaved).
    assert (Htruthy : Reads.truthy (Some r) = true).
    { destruct r; [congruence | reflexivity]. }
    rewrite Htruthy.
    destruct link_data as [link|].
    - assert (Hmark : mark_link_used (Link.link_id (fields link)) w2
                      = (Return true,
                         snd (mark_link_used (Link.link_id (fields link)) w2))).
      { rewrite mark_link_used_eq, Hout2. reflexivity. }
      rewrite (bind_return _ _ _ _ tt
                 (bind_return _ (fun _ => ret tt) _ _ _ Hmark)).
      destruct (Scoring.calculate_phq9_score (phq9 s)) as [[? ?] ?].
      destruct (Scoring.calculate_gad7_score gad7_answers) as [? ?].
      reflexivity.
    - rewrite (bind_return _ _ w2 w2 tt) by reflexivity.
      destruct (Scoring.calculate_phq9_score (phq9 s)) as [[? ?] ?].
      destruct (Scoring.calculate_gad7_score gad7_answers) as [? ?].
      reflexivity. }
  rewrite Hrun. cbn [fst snd]. rewrite Hs9, Hs7.
  exists (snd (fst (Scoring.calculate_phq9_score (phq9 s)))),
         (snd (Scoring.calculate_phq9_score (phq9 s))),
         (snd (Scoring.calculate_gad7_score gad7_answers)), r, d.
  split; [reflexivity|]. split; [lia|]. split; [lia|].
  split.
  { destruct link_data as [link|]; [|exact Hgrow].
    rewrite mark_link_used_eq, Hout2. exact Hgrow. }
  subst a. rewrite assemble_parts in Hd.
  destruct Hd as [p [v [z [Hp [Hv [Hz ->]]]]]].
  cbn in Hp. injection Hp as <-. cbn in Hv. injection Hv as <-.
  cbn in Hz. injection Hz as <-.
  cbn. rewrite Hs9, Hs7, Howner. repeat split.
Qed.

Lemma well_formed_submission_is_stored_witness :
  exists v1 a1 v2,
    fst (submit FormSamples.a_session FormSamples.gad7_answers None
                (Some Samples.doctor) "u" FormSamples.drive Samples.fresh)
    = Return (Submitted 12 v1 a1 15 v2).
Proof.
  destruct (well_formed_submission_is_stored FormSamples.a_session
              FormSamples.gad7_answers None (Some Samples.doctor) "u"
              FormSamples.drive Samples.fresh)
    as [v1 [a1 [v2 [r [d [Hrun _]]]]]].
  - reflexivity.
  - intros [].
  - discriminate.
  - reflexivity.
  - cbn. lia.
  - cbn. tauto.
  - cbn. tauto.
  - split; [reflexivity | repeat constructor; lia].
  - split; [reflexivity | repeat constructor; lia].
  - intros t _. reflexivity.
  - exists v1, a1, v2. exact Hrun.
Defined.



End FormFacts.

(** ** Properties of the pages *)

Module PageFacts.
Import Py Run Env Collection Core Query Reads LinkState PatientIds StoreState
       Pages LinkFacts QueryFacts.

(** X20. The list of links shows a URL beside exactly the links that
    would validate.  On a reachable store with unique link identifiers,
    [manage_assessment_links] lists every link of the doctor, newest
    first, and the row of a link carries the URL
    [assessment?link=<link_id>] if and only if [validate_link] returns
    that link at the same clock reading; used and expired links are
    listed without one. *)
Theorem listed_urls_are_the_valid_links (w : World) (user_id : string) :
  outage w = None ->
  unique_link_ids w ->
  exists rows,
    manage_assessment_links user_id w = (Return rows, w) /\
    get_doctor_links user_id w = (Return (map fst rows), w) /\
    (forall l, In l (map fst rows) <->
               In l (assessment_links w) /\ Link.doctor_id (fields l) = user_id) /\
    (forall l url, In (l, url) rows ->
       (url = Some ("assessment?link=" ++ Link.link_id (fields l))%string /\
        fst (validate_link (Link.link_id (fields l)) w) = Return (Some l)) \/
       (url = None /\
        fst (validate_link (Link.link_id (fields l)) w) = not_found)).
Proof.
  intros Hup Hu.
  destruct (ReadFacts.doctor_links_run w user_id Hup) as [links [Hrun Hiff]].
  eexists. split.
  { unfold manage_assessment_links.
    rewrite (FormFacts.bind_return _ _ _ _ _ Hrun).
    rewrite (FormFacts.bind_return _ _ w w (clock w)) by reflexivity.
    reflexivity. }
  rewrite map_map. cbn [fst]. rewrite map_id.
  split; [exact Hrun|]. split; [exact Hiff|].
  intros l url Hrow. apply in_map_iff in Hrow.
  destruct Hrow as [l0 [Heq Hl0]]. injection Heq as -> <-.
  apply Hiff in Hl0. destruct Hl0 as [Hin _].
  rewrite validate_link_eq, Hup. cbn [fst].
  destruct (negb (Link.used (fields l)) && (clock w <? Link.expires_at (fields l)))
    eqn:Hlive.
  - left. split; [reflexivity|]. f_equal.
    apply andb_true_iff in Hlive. destruct Hlive as [Hunused Hfuture].
    destruct (find _ _) as [s|] eqn:Hfind.
    + apply find_some in Hfind. destruct Hfind as [Hs Hq].
      apply live_query_spec in Hq. destruct Hq as [Hsid _].
      f_equal. apply (unique_same_link _ _ _ Hu Hs Hin). exact Hsid.
    + exfalso. pose proof (find_none _ _ Hfind l Hin) as Hq. cbv beta in Hq.
      unfold live_query in Hq. rewrite String.eqb_refl, Hfuture, Hunused in Hq.
      discriminate.
  - right. split; [reflexivity|]. unfold not_found. f_equal.
    destruct (find _ _) as [s|] eqn:Hfind; [|reflexivity].
    exfalso. apply find_some in Hfind. destruct Hfind as [Hs Hq].
    apply live_query_spec in Hq. destruct Hq as [Hsid [Hunused Hfuture]].
    assert (s = l) by (apply (unique_same_link _ _ _ Hu Hs Hin); exact Hsid).
    subst s. rewrite Hunused in Hlive. apply Z.ltb_lt in Hfuture.
    rewrite Hfuture in Hlive. discriminate.
Qed.

Lemma listed_urls_are_the_valid_links_witness :
  exists rows,
    manage_assessment_links Samples.doctor Samples.one_link
    = (Return rows, Samples.one_link) /\
    In Samples.a_link (map fst rows).
Proof.
  destruct (listed_urls_are_the_valid_links Samples.one_link Samples.doctor
              eq_refl ltac:(repeat constructor; cbn; tauto))
    as [rows [Hrun [_ [Hiff _]]]].
  exists rows. split; [exact Hrun|]. apply Hiff.
  split; [left; reflexivity | reflexivity].
Defined.

Example listing_of_one_link :
  fst (manage_assessment_links Samples.doctor Samples.one_link)
  = Return [(Samples.a_link, Some "assessment?link=link-1")] /\
  fst (manage_assessment_links Samples.doctor
         (Session.advance 4000 Samples.one_link))
  = Return [(Samples.a_link, None)].
Proof. split; vm_compute; reflexivity. Qed.

(** *** Counting *)

Lemma bump_sum (k : string) (d : list (string * nat)) :
  list_sum (map snd (bump k d)) = S (list_sum (map snd d)).
Proof.
  unfold list_sum. induction d as [|[k' n] d IH]; [reflexivity|].
  cbn [bump]. destruct (k' =? k)%string; cbn [map snd fold_right].
  - lia.
  - rewrite IH. lia.
Qed.

Lemma bump_lookup_same (k : string) (d : list (string * nat)) :
  lookup k (bump k d) = S (lookup k d).
Proof.
  induction d as [|[k' n] d IH]; cbn.
  - rewrite String.eqb_refl. reflexivity.
  - destruct (k' =? k)%string eqn:Hk; cbn; rewrite Hk; [reflexivity | exact IH].
Qed.

Lemma bump_lookup_other (k k0 : string) (d : list (string * nat)) :
  k0 <> k -> lookup k0 (bump k d) = lookup k0 d.
Proof.
  intros Hne. induction d as [|[k' n] d IH]; cbn.
  - destruct (String.eqb_spec k k0); [congruence | reflexivity].
  - destruct (String.eqb_spec k' k) as [->|Hk]; cbn.
    + destruct (String.eqb_spec k k0); [congruence | reflexivity].
    + rewrite IH. reflexivity.
Qed.

Lemma bump_keys (k k0 : string) (d : list (string * nat)) :
  In k0 (map fst (bump k d)) <-> k0 = k \/ In k0 (map fst d).
Proof.
  induction d as [|[k' n] d IH]; cbn.
  - intuition.
  - destruct (String.eqb_spec k' k) as [->|Hne]; cbn.
    + intuition.
    + rewrite IH. intuition.
Qed.

Lemma bump_nodup (k : string) (d : list (string * nat)) :
  NoDup (map fst d) -> NoDup (map fst (bump k d)).
Proof.
  induction d as [|[k' n] d IH]; cbn; intros Hnd.
  - constructor; [intros []|constructor].
  - apply NoDup_cons_iff in Hnd. destruct Hnd as [Hk' Hnd].
    destruct (String.eqb_spec k' k) as [->|Hne]; cbn.
    + constructor; assumption.
    + constructor; [|exact (IH Hnd)]. rewrite bump_keys. intuition.
Qed.

Lemma tally_from (keys : list string) (d : list (string * nat)) :
  let result := fold_left (fun d k => bump k d) keys d in
  list_sum (map snd result) = (List.length keys + list_sum (map snd d))%nat /\
  (NoDup (map fst d) -> NoDup (map fst result)) /\
  (forall k, lookup k result = (count_occ string_dec keys k + lookup k d)%nat) /\
  (forall k, In k (map fst result) <-> In k keys \/ In k (map fst d)).
Proof.
  revert d. induction keys as [|k0 keys IH]; intros d; cbn [fold_left].
  - cbn. split; [reflexivity|]. split; [auto|]. split; [reflexivity|].
    intuition.
  - destruct (IH (bump k0 d)) as [Hsum [Hnd [Hlook Hkeys]]]. cbv zeta in *.
    split; [rewrite Hsum, bump_sum; cbn; lia|].
    split; [intros H; apply Hnd, bump_nodup; exact H|].
    split.
    + intros k. rewrite Hlook. cbn [count_occ].
      destruct (string_dec k0 k) as [->|Hne].
      * rewrite bump_lookup_same. lia.
      * rewrite bump_lookup_other by congruence. reflexivity.
    + intros k. rewrite Hkeys, bump_keys. cbn. intuition.
Qed.

Lemma tally_spec (keys : list string) :
  list_sum (map snd (tally keys)) = List.length keys /\
  NoDup (map fst (tally keys)) /\
  (forall k, lookup k (tally keys) = count_occ string_dec keys k) /\
  (forall k, In k (map fst (tally keys)) <-> In k keys).
Proof.
  destruct (tally_from keys []) as [Hsum [Hnd [Hlook Hkeys]]]. cbv zeta in *.
  unfold tally. split; [rewrite Hsum; cbn; lia|].
  split; [apply Hnd; constructor|].
  split; [intros k; rewrite Hlook; cbn; lia|].
  intros k. rewrite Hkeys. cbn. intuition.
Qed.

Lemma nodup_shorter (l : list string) :
  (List.length (nodup string_dec l) <= List.length l)%nat.
Proof.
  induction l as [|x l IH]; cbn; [lia|].
  destruct (in_dec string_dec x l); cbn; lia.
Qed.

(** X21. The dashboard counts what [get_assessments_by_doctor] returns
    under its default limit, so at most the 100 newest assessments of
    the doctor.  On a reachable store: the number of assessments shown
    is the smaller of 100 and the number the doctor has; the number of
    patients is the number of distinct patient identifiers among those
    and never exceeds it; and each of the three distributions lists
    every value that occurs exactly once, with the number of its
    occurrences, the counts adding up to the number of assessments. *)
Theorem dashboard_counts_spec (w : World) (user_id : string) :
  outage w = None ->
  exists c records,
    create_dashboard user_id w = (Return c, w) /\
    get_assessments_by_doctor user_id default_limit w = (Return records, w) /\
    total_assessments c = List.length records /\
    total_assessments c
    = Nat.min 100 (List.length (filter (owned_by user_id) (assessments w))) /\
    total_patients c = List.length (nodup string_dec (map pid records)) /\
    (total_patients c <= total_assessments c)%nat /\
    (forall dist keys,
       (dist = gender_dist c /\
        keys = map (fun a => Assessment.gender (Assessment.d_patient (fields a)))
                   records) \/
       (dist = phq9_dist c /\
        keys = map (fun a => Assessment.phq9_severity (Assessment.d_phq9 (fields a)))
                   records) \/
       (dist = gad7_dist c /\
        keys = map (fun a => Assessment.gad7_severity (Assessment.d_gad7 (fields a)))
                   records) ->
       list_sum (map snd dist) = total_assessments c /\
       NoDup (map fst dist) /\
       (forall k, In k (map fst dist) <-> In k keys) /\
       (forall k, lookup k dist = count_occ string_dec keys k)).
Proof.
  intros Hup.
  assert (Hrun : exists records,
             get_assessments_by_doctor user_id default_limit w
             = (Return records, w) /\
             List.length records
             = Nat.min 100 (List.length (filter (owned_by user_id)
                                                (assessments w)))).
  { unfold get_assessments_by_doctor.
    rewrite ReadFacts.assessments_find_desc_eq, Hup.
    change (fun s : stored Assessment.doc =>
              match Assessment.d_doctor_id (fields s) with
              | Some owner => (owner =? user_id)%string
              | None => false
              end) with (owned_by user_id).
    destruct (limited_sorted_filter
                (fun s : stored Assessment.doc =>
                   Assessment.d_created_at (fields s))
                (owned_by user_id) default_limit (assessments w))
      as [_ [_ [dropped [_ [_ [_ Hlen]]]]]].
    eexists. split; [reflexivity|]. apply Hlen. discriminate. }
  destruct Hrun as [records [Hrun Hlen]].
  eexists. exists records. split.
  { unfold create_dashboard.
    rewrite (FormFacts.bind_return _ _ _ _ _ Hrun). reflexivity. }
  cbn [total_assessments total_patients gender_dist phq9_dist gad7_dist].
  split; [exact Hrun|]. split; [reflexivity|]. split; [exact Hlen|].
  split; [reflexivity|].
  split; [rewrite <- (length_map pid records); apply nodup_shorter|].
  intros dist keys [[-> ->]|[[-> ->]|[-> ->]]];
    destruct (tally_spec
                (map (fun a => Assessment.gender (Assessment.d_patient (fields a)))
                     records)) as [G1 [G2 [G3 G4]]];
    destruct (tally_spec
                (map (fun a => Assessment.phq9_severity
                                 (Assessment.d_phq9 (fields a))) records))
      as [P1 [P2 [P3 P4]]];
    destruct (tally_spec
                (map (fun a => Assessment.gad7_severity
                                 (Assessment.d_gad7 (fields a))) records))
      as [A1 [A2 [A3 A4]]];
    rewrite length_map in *; repeat split; try assumption;
    try apply G4; try apply P4; try apply A4.
Qed.

Lemma dashboard_counts_spec_witness :
  exists c,
    create_dashboard Samples.doctor (Samples.after_saving "P65f1-0001")
    = (Return c, Samples.after_saving "P65f1-0001") /\
    total_assessments c = 1%nat.
Proof.
  destruct (dashboard_counts_spec (Samples.after_saving "P65f1-0001")
              Samples.doctor eq_refl)
    as [c [records [Hrun [_ [_ [Hmin _]]]]]].
  exists c. split; [exact Hrun|]. rewrite Hmin. reflexivity.
Defined.

End PageFacts.

(** ** More on patient identifiers *)

Module PatientIdMoreFacts.
Import Py Run Env Collection Core Text PatientIds PyFacts PatientIdFacts.

Lemma compare_app (a b c : string) :
  String.compare (a ++ b) (a ++ c) = String.compare b c.
Proof.
  induction a as [|x a IH]; [reflexivity|].
  cbn. rewrite ascii_compare_refl. exact IH.
Qed.

Lemma ltb_app (a b c : string) : String.ltb (a ++ b) (a ++ c) = String.ltb b c.
Proof. unfold String.ltb. rewrite compare_app. reflexivity. Qed.

(** Up to 9999 the string order of the suffixes is the order of the
    numbers. *)
Lemma next_suffix_is_greater (k : Z) :
  0 <= k < 9999 -> String.ltb (format_04d k) (format_04d (k + 1)) = true.
Proof.
  intros Hk.
  assert (Hall : forallb (fun n => String.ltb (format_04d (Z.of_nat n))
                                              (format_04d (Z.of_nat n + 1)))
                         (seq 0 (Z.to_nat 9999)) = true)
    by (vm_compute; reflexivity).
  rewrite forallb_forall in Hall.
  specialize (Hall (Z.to_nat k)). rewrite Z2Nat.id in Hall by lia.
  apply Hall. apply in_seq. lia.
Qed.

Lemma stem_has_no_hyphen (doctor_id : string) :
  contains "-" (prefix 4 doctor_id) = false ->
  contains "-" ("P" ++ prefix 4 doctor_id) = false.
Proof. intros H. cbn. exact H. Qed.

Lemma generated_after (doctor_id : string) (w : World)
    (s : stored Assessment.doc) (k : Z) :
  outage w = None ->
  latest_for doctor_id w s ->
  contains "-" (prefix 4 doctor_id) = false ->
  0 <= k ->
  pid s = ("P" ++ prefix 4 doctor_id ++ "-" ++ format_04d k)%string ->
  generate_unique_patient_id doctor_id w
  = (Return ("P" ++ prefix 4 doctor_id ++ "-" ++ format_04d (k + 1))%string, w).
Proof.
  intros Hup Hlatest Hclean Hk Hpid.
  rewrite (generate_unique_patient_id_eq _ _ Hup).
  destruct (latest_is_greatest _ _ _ Hlatest) as [g [Hg Hsame]].
  pose proof (number_of_rendered _ k (stem_has_no_hyphen _ Hclean) Hk) as Hnum.
  change (("P" ++ prefix 4 doctor_id) ++ "-" ++ format_04d k)%string
    with ("P" ++ prefix 4 doctor_id ++ "-" ++ format_04d k)%string in Hnum.
  rewrite Hg, Hsame, Hpid, Hnum. reflexivity.
Qed.

(** X22. Within one doctor's records, and below 9999, the generated
    identifier is new.  When the doctor's latest patient identifier is
    the generator's own rendering of a number [k < 9999], with no hyphen
    in the first four characters of the doctor identifier, the generator
    returns the rendering of [k + 1]; it is later in string order than
    the latest identifier and differs from the identifier of every
    record the doctor has. *)
Theorem next_patient_id_is_new (doctor_id : string) (w : World)
    (s : stored Assessment.doc) (k : Z) :
  outage w = None ->
  latest_for doctor_id w s ->
  contains "-" (prefix 4 doctor_id) = false ->
  0 <= k < 9999 ->
  pid s = ("P" ++ prefix 4 doctor_id ++ "-" ++ format_04d k)%string ->
  let id := ("P" ++ prefix 4 doctor_id ++ "-" ++ format_04d (k + 1))%string in
  generate_unique_patient_id doctor_id w = (Return id, w) /\
  String.ltb (pid s) id = true /\
  (forall s', In s' (assessments w) -> owned_by doctor_id s' = true ->
              pid s' <> id).
Proof.
  intros Hup Hlatest Hclean Hk Hpid id.
  assert (Hlt : String.ltb (pid s) id = true).
  { subst id. rewrite Hpid.
    change (String.ltb (("P" ++ prefix 4 doctor_id) ++ String "-" (format_04d k))
                       (("P" ++ prefix 4 doctor_id)
                        ++ String "-" (format_04d (k + 1))) = true).
    rewrite ltb_app.
    pose proof (next_suffix_is_greater k Hk) as Hnext.
    unfold String.ltb in *. cbn [String.compare].
    rewrite ascii_compare_refl. exact Hnext. }
  split; [apply (generated_after _ _ s k); try assumption; lia|].
  split; [exact Hlt|].
  intros s' Hin Hown Heq.
  destruct Hlatest as [_ [_ Hmax]].
  pose proof (Hmax s' Hin Hown) as Hle. rewrite Heq in Hle. congruence.
Qed.

Lemma next_patient_id_is_new_witness :
  generate_unique_patient_id Samples.doctor (Samples.after_saving "P65f1-0041")
  = (Return "P65f1-0042", Samples.after_saving "P65f1-0041").
Proof.
  refine (proj1 (next_patient_id_is_new Samples.doctor
                   (Samples.after_saving "P65f1-0041")
                   (Samples.saved_record "P65f1-0041") 41 eq_refl _ eq_refl
                   ltac:(lia) eq_refl)).
  split; [left; reflexivity|]. split; [reflexivity|].
  intros s' [<-|[]] _. reflexivity.
Defined.

(** X23. Beyond 9999 the generator repeats itself.  When the doctor's
    latest patient identifier ends in 9999 the generator returns the one
    ending in 10000; and once a record with that identifier is stored
    for the doctor, the generator returns the very same identifier
    again, because in string order 10000 comes before 9999. *)
Theorem patient_id_repeats_after_9999 (doctor_id : string) (w w' : World)
    (s r : stored Assessment.doc) :
  outage w = None ->
  outage w' = None ->
  latest_for doctor_id w s ->
  contains "-" (prefix 4 doctor_id) = false ->
  pid s = ("P" ++ prefix 4 doctor_id ++ "-9999")%string ->
  assessments w' = (assessments w ++ [r])%list ->
  owned_by doctor_id r = true ->
  pid r = ("P" ++ prefix 4 doctor_id ++ "-10000")%string ->
  fst (generate_unique_patient_id doctor_id w)
  = Return ("P" ++ prefix 4 doctor_id ++ "-10000")%string /\
  fst (generate_unique_patient_id doctor_id w') = Return (pid r).
Proof.
  intros Hup Hup' Hlatest Hclean Hpid Hgrow Hown Hr.
  assert (Hrun : forall v, outage v = None -> latest_for doctor_id v s ->
            fst (generate_unique_patient_id doctor_id v)
            = Return ("P" ++ prefix 4 doctor_id ++ "-10000")%string).
  { intros v Hv Hl.
    rewrite (generated_after doctor_id v s 9999 Hv Hl Hclean ltac:(lia) Hpid).
    reflexivity. }
  split; [exact (Hrun w Hup Hlatest)|].
  rewrite Hr. apply (Hrun w' Hup').
  destruct Hlatest as [Hin [Hs Hmax]].
  split; [rewrite Hgrow; apply in_or_app; left; exact Hin|].
  split; [exact Hs|].
  intros s' Hin' Hown'. rewrite Hgrow in Hin'. apply in_app_or in Hin'.
  destruct Hin' as [Hold|[<-|[]]]; [exact (Hmax s' Hold Hown')|].
  apply ltb_asym. rewrite Hr, Hpid.
  change (String.ltb (("P" ++ prefix 4 doctor_id) ++ "-10000")
                     (("P" ++ prefix 4 doctor_id) ++ "-9999") = true).
  rewrite ltb_app. reflexivity.
Qed.

Lemma patient_id_repeats_after_9999_witness :
  fst (generate_unique_patient_id Samples.doctor
         (Samples.after_saving "P65f1-9999"))
  = Return "P65f1-10000" /\
  fst (generate_unique_patient_id Samples.doctor
         (with_assessments (Samples.after_saving "P65f1-9999")
            [Samples.saved_record "P65f1-9999";
             Samples.saved_record "P65f1-10000"]))
  = Return "P65f1-10000".
Proof.
  refine (patient_id_repeats_after_9999 Samples.doctor
            (Samples.after_saving "P65f1-9999")
            (with_assessments (Samples.after_saving "P65f1-9999")
               [Samples.saved_record "P65f1-9999";
                Samples.saved_record "P65f1-10000"])
            (Samples.saved_record "P65f1-9999")
            (Samples.saved_record "P65f1-10000")
            eq_refl eq_refl _ eq_refl eq_refl eq_refl eq_refl eq_refl).
  split; [left; reflexivity|]. split; [reflexivity|].
  intros s' [<-|[]] _. reflexivity.
Defined.

(** X24. The identifier is not unique across doctors.  The generator
    looks only at the records of the doctor it is called for and at the
    first four characters of that doctor's identifier: a doctor without
    records gets [P<prefix>-0001] even when another doctor with the same
    first four characters already has a record with exactly that
    patient identifier. *)
Theorem patient_id_shared_between_doctors (w : World) (doctor_id other : string)
    (s : stored Assessment.doc) :
  outage w = None ->
  (forall s', In s' (assessments w) -> owned_by doctor_id s' = false) ->
  In s (assessments w) ->
  owned_by other s = true ->
  prefix 4 other = prefix 4 doctor_id ->
  pid s = ("P" ++ prefix 4 other ++ "-0001")%string ->
  other <> doctor_id /\
  fst (generate_unique_patient_id doctor_id w) = Return (pid s).
Proof.
  intros Hup Hnone Hin Hown Hprefix Hpid. split.
  - intros ->. rewrite (Hnone s Hin) in Hown. discriminate.
  - rewrite (generate_unique_patient_id_eq _ _ Hup).
    assert (Hempty : filter (owned_by doctor_id) (assessments w) = []).
    { destruct (filter _ _) as [|x l] eqn:Hf; [reflexivity|].
      assert (Hx : In x (filter (owned_by doctor_id) (assessments w)))
        by (rewrite Hf; left; reflexivity).
      apply filter_In in Hx. destruct Hx as [Hx Hxo].
      rewrite (Hnone x Hx) in Hxo. discriminate. }
    rewrite Hempty, Hpid, Hprefix. reflexivity.
Qed.

Lemma patient_id_shared_between_doctors_witness :
  fst (generate_unique_patient_id "65f1ffffffffffffffffffff"
         (Samples.after_saving "P65f1-0001"))
  = Return "P65f1-0001".
Proof.
  refine (proj2 (patient_id_shared_between_doctors
                   (Samples.after_saving "P65f1-0001")
                   "65f1ffffffffffffffffffff" Samples.doctor
                   (Samples.saved_record "P65f1-0001")
                   eq_refl _ _ eq_refl eq_refl eq_refl)).
  - intros s' [<-|[]]. reflexivity.
  - left. reflexivity.
Defined.

End PatientIdMoreFacts.
